(** * langchain-azure: vector stores and semantic caches

    A shallow embedding of the parts of
    [langchain_azure_ai/vectorstores/azuresearch.py],
    [langchain_azure_ai/vectorstores/azure_cosmos_db_mongo_vcore.py] and
    [langchain_azure_ai/vectorstores/cache.py] that build backend requests,
    normalise backend rows, upload documents in batches and keep the
    semantic-cache registry, together with the properties proved of them.

    Python values are modelled by the type [value]; a Python [dict] with
    string keys is an association list in insertion order; a call that can
    raise returns an [outcome]; code that talks to a backend threads the
    backend state explicitly. *)

From Stdlib Require Import ZArith NArith Lia List String Ascii Bool DecimalString.
From Stdlib Require Import Floats.PrimFloat Floats.FloatOps Floats.SpecFloat.
From stdpp Require Import base option gmap strings.
Import ListNotations.

Local Open Scope string_scope.
Local Open Scope list_scope.

(* ===================================================================== *)
(** ** Python values, exceptions and dictionaries *)
(* ===================================================================== *)

Module Py.

(** The values that travel through backend rows, metadata and requests.
    [VObject] is an instance of a backend SDK class, seen through its
    attributes (for example a caption with [text] and [highlights]). *)
#[warnings="-register-all"]
Inductive value : Type :=
| VNone
| VBool (b : bool)
| VInt (n : Z)
| VFloat (x : float)
| VStr (s : string)
| VList (items : list value)
| VDict (entries : list (string * value))
| VObject (cls : string) (attrs : list (string * value)).

Definition dict : Type := list (string * value).

(** One entry of the per-document report of [upload_documents]. *)
Record IndexingResult : Type := mkIndexingResult {
  ir_key : string;
  succeeded : bool
}.

(** The exceptions the modelled code raises or lets through. *)
Inductive exn : Type :=
| KeyError (key : string)
| IndexError
| TypeError
| ValueError
| AttributeError (name : string)
| JSONDecodeError
| ValidationError
| ZeroDivisionError
| OverflowError
| LangChainException (response : list IndexingResult)
| BackendError (msg : string).

Inductive outcome (A : Type) : Type :=
| Ok (a : A)
| Raise (e : exn).
Arguments Ok {A} a.
Arguments Raise {A} e.

Definition bind {A B : Type} (m : outcome A) (k : A -> outcome B) : outcome B :=
  match m with
  | Ok a => k a
  | Raise e => Raise e
  end.

Definition is_ok {A : Type} (m : outcome A) : bool :=
  match m with Ok _ => true | Raise _ => false end.

(** Code that changes a backend or an object: the state is threaded, and
    what was changed before an exception stays changed. *)
Definition action (S A : Type) : Type := S -> outcome A * S.

Definition pure {S A : Type} (a : A) : action S A := fun s => (Ok a, s).

Definition lift {S A : Type} (m : outcome A) : action S A := fun s => (m, s).

Definition and_then {S A B : Type} (m : action S A) (k : A -> action S B)
  : action S B :=
  fun s =>
    match m s with
    | (Ok a, s') => k a s'
    | (Raise e, s') => (Raise e, s')
    end.

(** [json.JSONDecodeError] is a subclass of [ValueError]; the handlers of
    the modelled code name [json.JSONDecodeError] and [TypeError] only. *)
Definition is_JSONDecodeError (e : exn) : bool :=
  match e with JSONDecodeError => true | _ => false end.

(** *** dict operations (string keys, insertion order) *)

Fixpoint dict_get (d : dict) (k : string) : option value :=
  match d with
  | [] => None
  | (k', v) :: rest => if String.eqb k' k then Some v else dict_get rest k
  end.

Definition dict_contains (d : dict) (k : string) : bool :=
  match dict_get d k with Some _ => true | None => false end.

(** [d[k]] *)
Definition dict_getitem (d : dict) (k : string) : outcome value :=
  match dict_get d k with
  | Some v => Ok v
  | None => Raise (KeyError k)
  end.

Definition dict_remove (d : dict) (k : string) : dict :=
  List.filter (fun kv => negb (String.eqb (fst kv) k)) d.

(** [d.pop(k)]: the value and the dictionary without the key. *)
Definition dict_pop (d : dict) (k : string) : outcome (value * dict) :=
  match dict_get d k with
  | Some v => Ok (v, dict_remove d k)
  | None => Raise (KeyError k)
  end.

(** [d.pop(k, default)] *)
Definition dict_pop_default (d : dict) (k : string) (dflt : value) : value * dict :=
  match dict_get d k with
  | Some v => (v, dict_remove d k)
  | None => (dflt, d)
  end.

(** [d[k] = v]: an existing key keeps its position, a new key goes last. *)
Fixpoint dict_set (d : dict) (k : string) (v : value) : dict :=
  match d with
  | [] => [(k, v)]
  | (k', v') :: rest =>
      if String.eqb k' k then (k', v) :: rest else (k', v') :: dict_set rest k v
  end.

(** [d.update(other)], also the merge of two dict displays. *)
Definition dict_update (d other : dict) : dict :=
  fold_left (fun acc kv => dict_set acc (fst kv) (snd kv)) other d.

(** *** Truth values *)

Definition list_truthy {A : Type} (l : list A) : bool :=
  match l with [] => false | _ :: _ => true end.

(** Truth value of an argument of type [Optional[List]] or [Optional[Dict]]. *)
Definition opt_list_truthy {A : Type} (o : option (list A)) : bool :=
  match o with Some l => list_truthy l | None => false end.

(** *** Sequence indexing [l[i]], negative indices counting from the end *)

Definition list_getitem {A : Type} (l : list A) (i : Z) : outcome A :=
  let n := Z.of_nat (length l) in
  let j := if (i <? 0)%Z then (i + n)%Z else i in
  if ((0 <=? j) && (j <? n))%Z%bool then
    match nth_error l (Z.to_nat j) with
    | Some a => Ok a
    | None => Raise IndexError
    end
  else Raise IndexError.

(** *** Comparison of a number with a float *)

(** Exact comparison [z < t] of an integer with a binary64 float, as
    Python compares an [int] with a [float]. *)
Definition Z_ltb_float (z : Z) (t : float) : bool :=
  match Prim2SF t with
  | S754_zero _ => (z <? 0)%Z
  | S754_infinity s => negb s
  | S754_nan => false
  | S754_finite s m e =>
      let mz := if s then Z.neg m else Z.pos m in
      if (0 <=? e)%Z then (z <? mz * 2 ^ e)%Z else (z * 2 ^ (- e) <? mz)%Z
  end.

(** [v < t] for a float [t]: numbers (and [bool], a subclass of [int])
    compare; any other left operand raises [TypeError]. *)
Definition value_lt_float (v : value) (t : float) : outcome bool :=
  match v with
  | VFloat x => Ok (PrimFloat.ltb x t)
  | VInt z => Ok (Z_ltb_float z t)
  | VBool b => Ok (Z_ltb_float (if b then 1 else 0)%Z t)
  | _ => Raise TypeError
  end.

(** Truth value of a float: zero (of either sign) is false. *)
Definition float_truthy (x : float) : bool := negb (PrimFloat.eqb x 0%float).

(** Truth value of any value. *)
Definition value_truthy (v : value) : bool :=
  match v with
  | VNone => false
  | VBool b => b
  | VInt n => negb (n =? 0)%Z
  | VFloat x => float_truthy x
  | VStr s => negb (String.eqb s EmptyString)
  | VList items => list_truthy items
  | VDict entries => list_truthy entries
  | VObject _ _ => true
  end.

(** [float(n)] for an [int]: rounded to nearest, [OverflowError] when
    out of range. *)
Definition float_of_int (n : Z) : outcome float :=
  match binary_normalize prec emax n 0 false with
  | S754_infinity _ => Raise OverflowError
  | sf => Ok (SF2Prim sf)
  end.

(** [v[0]] *)
Definition value_first (v : value) : outcome value :=
  match v with
  | VList (x :: _) => Ok x
  | VList [] => Raise IndexError
  | VStr (String c _) => Ok (VStr (String c EmptyString))
  | VStr EmptyString => Raise IndexError
  | VDict _ => Raise (KeyError "0")
  | _ => Raise TypeError
  end.

(** [v.name] *)
Definition value_getattr (v : value) (name : string) : outcome value :=
  match v with
  | VObject _ attrs =>
      match dict_get attrs name with
      | Some a => Ok a
      | None => Raise (AttributeError name)
      end
  | _ => Raise (AttributeError name)
  end.

(** The operand of a double-star unpacking must be a mapping. *)
Definition as_mapping (v : value) : outcome dict :=
  match v with
  | VDict d => Ok d
  | _ => Raise TypeError
  end.

(** *** [langchain_core.documents.Document] *)

Record Document : Type := mkDocument {
  page_content : string;
  metadata : dict
}.

(** [Document(page_content=..., metadata=...)]: the model validates that
    the content is a string. *)
Definition Document_init (content : value) (meta : dict) : outcome Document :=
  match content with
  | VStr s => Ok (mkDocument s meta)
  | _ => Raise ValidationError
  end.

(** *** [langchain_core.embeddings.Embeddings] *)

Class Embeddings : Type := {
  embed_query : string -> outcome (list float);
  embed_documents : list string -> outcome (list (list float));
  aembed_query : string -> outcome (list float)
}.

End Py.
Export Py.

Declare Scope py_scope.
Notation "'do' x <- m ; k" := (bind m (fun x => k))
  (at level 10, x name, m at level 100, k at level 200) : py_scope.
Notation "'do' ' pat <- m ; k" :=
  (bind m (fun x => match x with pat => k end))
  (at level 10, pat pattern, m at level 100, k at level 200) : py_scope.
Notation "'act' x <- m ; k" := (and_then m (fun x => k))
  (at level 10, x name, m at level 100, k at level 200) : py_scope.
Notation "'act' ' pat <- m ; k" :=
  (and_then m (fun x => match x with pat => k end))
  (at level 10, pat pattern, m at level 100, k at level 200) : py_scope.
Local Open Scope py_scope.

(* ===================================================================== *)
(** ** [base64.urlsafe_b64encode] *)
(* ===================================================================== *)

(** A Python [str] is modelled by its UTF-8 bytes, so [bytes(s, "utf-8")]
    and [.decode("ascii")] are the identity on the model. *)
Module B64.

Definition alphabet : string :=
  "ABCDEFGHIJKLMNOPQRSTUVWXYZabcdefghijklmnopqrstuvwxyz0123456789-_".

Definition digit (n : N) : ascii :=
  match String.get (N.to_nat n) alphabet with
  | Some c => c
  | None => "="%char
  end.

Fixpoint encode_bytes (bs : list N) : string :=
  match bs with
  | [] => EmptyString
  | [a] =>
      String (digit (N.shiftr a 2))
        (String (digit (N.shiftl (N.land a 3) 4)) "==")
  | [a; b] =>
      String (digit (N.shiftr a 2))
        (String (digit (N.lor (N.shiftl (N.land a 3) 4) (N.shiftr b 4)))
           (String (digit (N.shiftl (N.land b 15) 2)) "="))
  | a :: b :: c :: rest =>
      String (digit (N.shiftr a 2))
        (String (digit (N.lor (N.shiftl (N.land a 3) 4) (N.shiftr b 4)))
           (String (digit (N.lor (N.shiftl (N.land b 15) 2) (N.shiftr c 6)))
              (String (digit (N.land c 63)) (encode_bytes rest))))
  end.

Definition bytes_of_string (s : string) : list N :=
  map N_of_ascii (list_ascii_of_string s).

Definition urlsafe_b64encode (s : string) : string :=
  encode_bytes (bytes_of_string s).

End B64.

(* ===================================================================== *)
(** ** [hashlib.sha256(...).hexdigest()] *)
(* ===================================================================== *)

Module Sha256.

Local Open Scope N_scope.

Definition mask32 : N := 4294967295.
Definition add32 (x y : N) : N := N.land (x + y) mask32.
Definition rotr (n x : N) : N :=
  N.lor (N.shiftr x n) (N.land (N.shiftl x (32 - n)) mask32).

Definition Ch (x y z : N) : N :=
  N.lxor (N.land x y) (N.land (N.lxor x mask32) z).
Definition Maj (x y z : N) : N :=
  N.lxor (N.lxor (N.land x y) (N.land x z)) (N.land y z).
Definition Sigma0 (x : N) : N := N.lxor (N.lxor (rotr 2 x) (rotr 13 x)) (rotr 22 x).
Definition Sigma1 (x : N) : N := N.lxor (N.lxor (rotr 6 x) (rotr 11 x)) (rotr 25 x).
Definition sigma0 (x : N) : N := N.lxor (N.lxor (rotr 7 x) (rotr 18 x)) (N.shiftr x 3).
Definition sigma1 (x : N) : N := N.lxor (N.lxor (rotr 17 x) (rotr 19 x)) (N.shiftr x 10).

Definition hex_value (c : ascii) : N :=
  let n := N_of_ascii c in
  if n <? 58 then n - 48 else n - 87.

(** The words written as eight hexadecimal digits each, one after the other. *)
Fixpoint words_of_hex (fuel : nat) (s : string) : list N :=
  match fuel with
  | O => []
  | S fuel' =>
      match s with
      | String a (String b (String c (String d
          (String e (String f (String g (String h rest))))))) =>
          fold_left (fun acc ch => acc * 16 + hex_value ch) [a; b; c; d; e; f; g; h] 0
          :: words_of_hex fuel' rest
      | _ => []
      end
  end.

Definition round_constants : list N :=
  Eval vm_compute in
  words_of_hex 64
    ("428a2f9871374491b5c0fbcfe9b5dba53956c25b59f111f1923f82a4ab1c5ed5" ++
     "d807aa9812835b01243185be550c7dc372be5d7480deb1fe9bdc06a7c19bf174" ++
     "e49b69c1efbe47860fc19dc6240ca1cc2de92c6f4a7484aa5cb0a9dc76f988da" ++
     "983e5152a831c66db00327c8bf597fc7c6e00bf3d5a7914706ca635114292967" ++
     "27b70a852e1b21384d2c6dfc53380d13650a7354766a0abb81c2c92e92722c85" ++
     "a2bfe8a1a81a664bc24b8b70c76c51a3d192e819d6990624f40e3585106aa070" ++
     "19a4c1161e376c082748774c34b0bcb5391c0cb34ed8aa4a5b9cca4f682e6ff3" ++
     "748f82ee78a5636f84c878148cc7020890befffaa4506cebbef9a3f7c67178f2").

Definition initial_hash : list N :=
  Eval vm_compute in
  words_of_hex 8
    "6a09e667bb67ae853c6ef372a54ff53a510e527f9b05688c1f83d9ab5be0cd19".

(** Big-endian bytes of [x], [n] of them. *)
Fixpoint be_bytes (n : nat) (x : N) : list N :=
  match n with
  | O => []
  | S n' => N.land (N.shiftr x (8 * N.of_nat n')) 255 :: be_bytes n' x
  end.

Definition pad (msg : list N) : list N :=
  let len := N.of_nat (length msg) in
  let zeros := N.to_nat ((120 - (len + 1) mod 64) mod 64) in
  (msg ++ [128] ++ repeat 0 zeros ++ be_bytes 8 (8 * len))%list.

(** The big-endian 32-bit words of a byte sequence. *)
Fixpoint words_of_bytes (fuel : nat) (bs : list N) : list N :=
  match fuel with
  | O => []
  | S fuel' =>
      match bs with
      | a :: b :: c :: d :: rest =>
          (((a * 256 + b) * 256 + c) * 256 + d) :: words_of_bytes fuel' rest
      | _ => []
      end
  end.

(** Message schedule, newest word first: [w] holds W(t-1), W(t-2), ... *)
Fixpoint schedule (n : nat) (w : list N) : list N :=
  match n with
  | O => w
  | S n' =>
      let wt := add32 (add32 (sigma1 (nth 1 w 0)) (nth 6 w 0))
                      (add32 (sigma0 (nth 14 w 0)) (nth 15 w 0)) in
      schedule n' (wt :: w)
  end.

Record regs : Type := mkRegs { ra : N; rb : N; rc : N; rd : N; re : N; rf : N; rg : N; rh : N }.

Definition round (s : regs) (kw : N * N) : regs :=
  let t1 := add32 (add32 (add32 (rh s) (Sigma1 (re s)))
                         (add32 (Ch (re s) (rf s) (rg s)) (fst kw))) (snd kw) in
  let t2 := add32 (Sigma0 (ra s)) (Maj (ra s) (rb s) (rc s)) in
  mkRegs (add32 t1 t2) (ra s) (rb s) (rc s) (add32 (rd s) t1) (re s) (rf s) (rg s).

Definition compress (h : regs) (block : list N) : regs :=
  let w := rev (schedule 48 (rev block)) in
  let s := fold_left round (combine round_constants w) h in
  mkRegs (add32 (ra h) (ra s)) (add32 (rb h) (rb s)) (add32 (rc h) (rc s))
         (add32 (rd h) (rd s)) (add32 (re h) (re s)) (add32 (rf h) (rf s))
         (add32 (rg h) (rg s)) (add32 (rh h) (rh s)).

(** The 16-word blocks of a padded message. *)
Fixpoint blocks (fuel : nat) (ws : list N) : list (list N) :=
  match fuel with
  | O => []
  | S fuel' =>
      match ws with
      | [] => []
      | _ => firstn 16 ws :: blocks fuel' (skipn 16 ws)
      end
  end.

Definition hex_digit (n : N) : ascii :=
  ascii_of_N (if n <? 10 then 48 + n else 87 + n).

Fixpoint hex_of_word (n : nat) (x : N) : string :=
  match n with
  | O => EmptyString
  | S n' => String (hex_digit (N.land (N.shiftr x (4 * N.of_nat n')) 15)) (hex_of_word n' x)
  end.

Definition digest_words (msg : list N) : list N :=
  let ws := let p := pad msg in words_of_bytes (length p) p in
  let h0 :=
    mkRegs (nth 0 initial_hash 0) (nth 1 initial_hash 0) (nth 2 initial_hash 0)
           (nth 3 initial_hash 0) (nth 4 initial_hash 0) (nth 5 initial_hash 0)
           (nth 6 initial_hash 0) (nth 7 initial_hash 0) in
  let h := fold_left compress (blocks (length ws) ws) h0 in
  [ra h; rb h; rc h; rd h; re h; rf h; rg h; rh h].

Definition hexdigest (s : string) : string :=
  String.concat EmptyString (map (hex_of_word 8) (digest_words (B64.bytes_of_string s))).

End Sha256.

(* ===================================================================== *)
(** ** azure_cosmos_db_mongo_vcore.py *)
(* ===================================================================== *)

Module MongoVCore.

Inductive CosmosDBSimilarityType : Type := COS | IP | L2.

Inductive CosmosDBVectorSearchType : Type :=
| VECTOR_IVF
| VECTOR_HNSW
| VECTOR_DISKANN.

Inductive CosmosDBVectorSearchCompression : Type := PQ | HALF.

Definition DEFAULT_INSERT_BATCH_SIZE : Z := 128.

(** The collection a store writes to and searches: its documents, the
    names of its indexes, and the counter the backend draws [_id]s from. *)
Record Collection : Type := mkCollection {
  coll_name : string;
  coll_documents : list dict;
  coll_indexes : list string;
  coll_next_id : Z
}.

(** [self] of [AzureCosmosDBMongoVCoreVectorSearch]; the collection it
    points to is the backend state, passed alongside. *)
Record AzureCosmosDBMongoVCoreVectorSearch : Type := mkVectorSearch {
  _index_name : string;
  _text_key : string;
  _embedding_key : string;
  _application_name : string
}.

(** The constructor with its keyword defaults. *)
Definition new_vector_search (index_name : option string) : AzureCosmosDBMongoVCoreVectorSearch :=
  mkVectorSearch (default "vectorSearchIndex" index_name)
                 "textContent" "vectorContent" "langchainpy".

(** The backend's answer to [collection.aggregate(pipeline)]: the rows of
    the cursor, or the error the driver raises. *)
Class MongoBackend : Type := {
  aggregate : Collection -> list dict -> outcome (list dict)
}.

Definition float_list (xs : list float) : value := VList (map VFloat xs).

Definition opt_float_value (o : option float) : value :=
  match o with Some x => VFloat x | None => VNone end.

(** The second stage, shared by the three builders. *)
Definition project_stage : dict :=
  [("$project",
    VDict [("similarityScore", VDict [("$meta", VStr "searchScore")]);
           ("document", VStr "$$ROOT")])].

(** [if pre_filter: params["filter"] = pre_filter] *)
Definition add_pre_filter (params : dict) (pre_filter : option dict) : dict :=
  match pre_filter with
  | Some f => if list_truthy f then dict_set params "filter" (VDict f) else params
  | None => params
  end.

Section Builders.

Variable self : AzureCosmosDBMongoVCoreVectorSearch.

(** An omitted keyword argument is [None] here and takes the default of
    the signature; [oversampling] is [Optional[float]] with default 1.0. *)
Definition _get_pipeline_vector_ivf (embeddings : list float) (k : option Z)
    (pre_filter : option dict) (oversampling : option (option float)) : list dict :=
  let params : dict :=
    [("vector", float_list embeddings);
     ("path", VStr (_embedding_key self));
     ("k", VInt (default 4%Z k));
     ("oversampling", opt_float_value (default (Some 1%float) oversampling))] in
  let params := add_pre_filter params pre_filter in
  [ [("$search", VDict [("cosmosSearch", VDict params);
                        ("returnStoredSource", VBool true)])];
    project_stage ].

Definition _get_pipeline_vector_hnsw (embeddings : list float) (k : option Z)
    (ef_search : option Z) (pre_filter : option dict)
    (oversampling : option (option float)) : list dict :=
  let params : dict :=
    [("vector", float_list embeddings);
     ("path", VStr (_embedding_key self));
     ("k", VInt (default 4%Z k));
     ("efSearch", VInt (default 40%Z ef_search));
     ("oversampling", opt_float_value (default (Some 1%float) oversampling))] in
  let params := add_pre_filter params pre_filter in
  [ [("$search", VDict [("cosmosSearch", VDict params)])];
    project_stage ].

Definition _get_pipeline_vector_diskann (embeddings : list float) (k : option Z)
    (l_search : option Z) (pre_filter : option dict)
    (oversampling : option (option float)) : list dict :=
  let params : dict :=
    [("vector", float_list embeddings);
     ("path", VStr (_embedding_key self));
     ("k", VInt (default 4%Z k));
     ("lSearch", VInt (default 40%Z l_search));
     ("oversampling", opt_float_value (default (Some 1%float) oversampling))] in
  let params := add_pre_filter params pre_filter in
  [ [("$search", VDict [("cosmosSearch", VDict params)])];
    project_stage ].

(** The dispatch on [kind] at the head of [_similarity_search_with_score]:
    the builders receive [embeddings], [k], the kind's parameter and
    [pre_filter]; [oversampling] is not handed on. *)
Definition search_pipeline (embeddings : list float) (k : option Z)
    (kind : option CosmosDBVectorSearchType) (pre_filter : option dict)
    (ef_search l_search : option Z) : list dict :=
  let k := Some (default 4%Z k) in
  match default VECTOR_IVF kind with
  | VECTOR_IVF => _get_pipeline_vector_ivf embeddings k pre_filter None
  | VECTOR_HNSW =>
      _get_pipeline_vector_hnsw embeddings k (Some (default 40%Z ef_search)) pre_filter None
  | VECTOR_DISKANN =>
      _get_pipeline_vector_diskann embeddings k (Some (default 40%Z l_search)) pre_filter None
  end.

(** [x.pop(...)] needs [x] to be a dict. *)
Definition as_popable (v : value) : outcome dict :=
  match v with
  | VDict d => Ok d
  | VList _ => Raise TypeError
  | _ => Raise (AttributeError "pop")
  end.

(** [metadata[key] = v] *)
Definition value_setitem (target : value) (key : string) (v : value) : outcome dict :=
  match target with
  | VDict d => Ok (dict_set d key v)
  | _ => Raise TypeError
  end.

(** One turn of the loop over the cursor: [None] is [continue]. *)
Definition row_to_doc (score_threshold : float) (with_embedding : bool)
    (res : dict) : outcome (option (Document * value)) :=
  do '(score, res) <- dict_pop res "similarityScore";
  do below <- value_lt_float score score_threshold;
  if below then Ok None
  else
    do '(document_object_field, res) <- dict_pop res "document";
    do fields <- as_popable document_object_field;
    do '(text, fields) <- dict_pop fields (_text_key self);
    let '(meta, fields) := dict_pop_default fields "metadata" (VDict []) in
    do '(oid, fields) <- dict_pop fields "_id";
    do meta <- value_setitem meta "_id" oid;
    do meta <-
      (if with_embedding then
         do '(emb, fields) <- dict_pop fields (_embedding_key self);
         Ok (dict_set meta (_embedding_key self) emb)
       else Ok meta);
    do doc <- Document_init text meta;
    Ok (Some (doc, score)).

Fixpoint scan_cursor (score_threshold : float) (with_embedding : bool)
    (cursor : list dict) (docs : list (Document * value))
  : outcome (list (Document * value)) :=
  match cursor with
  | [] => Ok docs
  | res :: rest =>
      do r <- row_to_doc score_threshold with_embedding res;
      scan_cursor score_threshold with_embedding rest
        (match r with Some d => docs ++ [d] | None => docs end)
  end.

Context `{MongoBackend} `{Embeddings}.

Definition _similarity_search_with_score (coll : Collection)
    (embeddings : list float) (k : option Z)
    (kind : option CosmosDBVectorSearchType) (pre_filter : option dict)
    (ef_search : option Z) (score_threshold : option float)
    (l_search : option Z) (with_embedding : option bool)
    (oversampling : option (option float))
  : outcome (list (Document * value)) :=
  let pipeline := search_pipeline embeddings k kind pre_filter ef_search l_search in
  do cursor <- aggregate coll pipeline;
  scan_cursor (default 0%float score_threshold) (default false with_embedding) cursor [].

Definition similarity_search_with_score (coll : Collection)
    (query : string) (k : option Z)
    (kind : option CosmosDBVectorSearchType) (pre_filter : option dict)
    (ef_search : option Z) (score_threshold : option float)
    (l_search : option Z) (with_embedding : option bool)
    (oversampling : option (option float))
  : outcome (list (Document * value)) :=
  do embeddings <- embed_query query;
  _similarity_search_with_score coll embeddings
    (Some (default 4%Z k)) (Some (default VECTOR_IVF kind)) pre_filter
    (Some (default 40%Z ef_search)) (Some (default 0%float score_threshold))
    (Some (default 40%Z l_search)) (Some (default false with_embedding))
    (Some (default (Some 1%float) oversampling)).

Definition similarity_search (coll : Collection)
    (query : string) (k : option Z)
    (kind : option CosmosDBVectorSearchType) (pre_filter : option dict)
    (ef_search : option Z) (score_threshold : option float)
    (l_search : option Z) (with_embedding : option bool)
    (oversampling : option (option float))
  : outcome (list Document) :=
  do docs_and_scores <-
    similarity_search_with_score coll query
      (Some (default 4%Z k)) (Some (default VECTOR_IVF kind)) pre_filter
      (Some (default 40%Z ef_search)) (Some (default 0%float score_threshold))
      (Some (default 40%Z l_search)) (Some (default false with_embedding))
      (Some (default (Some 1%float) oversampling));
  Ok (map fst docs_and_scores).

(** *** The collection as the driver shows it *)

(** [collection.insert_many(documents)]: every document gets a fresh
    [_id]; an empty list is refused by the driver. *)
Fixpoint assign_ids (docs : list dict) (next : Z) : list dict * list value * Z :=
  match docs with
  | [] => ([], [], next)
  | d :: rest =>
      let '(ds, ids, next') := assign_ids rest (next + 1)%Z in
      (dict_set d "_id" (VInt next) :: ds, VInt next :: ids, next')
  end.

Definition insert_many (docs : list dict) : action Collection (list value) :=
  fun coll =>
    match docs with
    | [] => (Raise TypeError, coll)
    | _ =>
        let '(ds, ids, next) := assign_ids docs (coll_next_id coll) in
        (Ok ids,
         mkCollection (coll_name coll) (coll_documents coll ++ ds)
                      (coll_indexes coll) next)
    end.

(** [collection.delete_many({})] *)
Definition delete_many_all : action Collection unit :=
  fun coll =>
    (Ok tt, mkCollection (coll_name coll) [] (coll_indexes coll) (coll_next_id coll)).

Definition index_exists (coll : Collection) : bool :=
  existsb (String.eqb (_index_name self)) (coll_indexes coll).

(** [create_index]: the command sent to the database registers an index
    under the store's index name. *)
Definition create_index : action Collection unit :=
  fun coll =>
    (Ok tt,
     mkCollection (coll_name coll) (coll_documents coll)
                  (coll_indexes coll ++ [_index_name self]) (coll_next_id coll)).

Fixpoint zip3 (ts : list string) (ms : list dict) (es : list (list float))
  : list (string * dict * list float) :=
  match ts, ms, es with
  | t :: ts', m :: ms', e :: es' => (t, m, e) :: zip3 ts' ms' es'
  | _, _, _ => []
  end.

Definition _insert_texts (texts : list string) (metadatas : list dict)
  : action Collection (list value) :=
  if negb (list_truthy texts) then pure []
  else
    act embeddings <- lift (embed_documents texts);
    let to_insert :=
      map (fun '(t, m, e) =>
             dict_set (dict_set [(_text_key self, VStr t)]
                                (_embedding_key self) (float_list e))
                      "metadata" (VDict m))
          (zip3 texts metadatas embeddings) in
    insert_many to_insert.

Fixpoint add_texts_loop (batch_size : Z) (items : list (string * dict)) (i : Z)
    (texts_batch : list string) (metadatas_batch : list dict)
    (result_ids : list value) : action Collection (list value) :=
  match items with
  | [] =>
      if list_truthy texts_batch then
        act ids <- _insert_texts texts_batch metadatas_batch;
        pure (result_ids ++ ids)
      else pure result_ids
  | (text, meta) :: rest =>
      let texts_batch := texts_batch ++ [text] in
      let metadatas_batch := metadatas_batch ++ [meta] in
      if (batch_size =? 0)%Z then lift (Raise ZeroDivisionError)
      else if ((i + 1) mod batch_size =? 0)%Z then
        act ids <- _insert_texts texts_batch metadatas_batch;
        add_texts_loop batch_size rest (i + 1)%Z [] [] (result_ids ++ ids)
      else
        add_texts_loop batch_size rest (i + 1)%Z texts_batch metadatas_batch result_ids
  end.

Definition add_texts (texts : list string) (metadatas : option (list dict))
    (batch_size : option Z) : action Collection (list value) :=
  let batch_size := default DEFAULT_INSERT_BATCH_SIZE batch_size in
  let _metadatas :=
    match metadatas with
    | Some ms => if list_truthy ms then ms else map (fun _ => []) texts
    | None => map (fun _ => []) texts
    end in
  add_texts_loop batch_size (combine texts _metadatas) 0 [] [] [].

End Builders.

End MongoVCore.

(* ===================================================================== *)
(** ** cache.py *)
(* ===================================================================== *)

Module Cache.

Import MongoVCore.

(** [_hash]: a deterministic hash of the model signature. *)
Definition _hash (_input : string) : string := Sha256.hexdigest _input.

(** [langchain_core.outputs.Generation] *)
Record Generation : Type := mkGeneration {
  text : string;
  generation_info : option dict
}.

(** The codecs of [langchain_core.load] and [json], and the constructor
    [Generation] applied to keyword arguments, as the cache calls them. *)
Class GenerationCodec : Type := {
  loads : string -> outcome (list Generation);
  dumps : list Generation -> string;
  json_loads : string -> outcome value;
  Generation_init : dict -> outcome Generation
}.

(** The message logged when the structured codec fails. *)
Definition OLDER_FORMAT_WARNING : string :=
  "Retrieving a cache value that could not be deserialized properly. " ++
  "This is likely due to the cache being in an older format. " ++
  "Please recreate your cache to avoid this error.".

(** [s.split(sep)] for a one-character separator. *)
Fixpoint split_on (sep : ascii) (s : string) : list string :=
  match s with
  | EmptyString => [EmptyString]
  | String c rest =>
      let parts := split_on sep rest in
      if Ascii.eqb c sep then EmptyString :: parts
      else
        match parts with
        | p :: ps => String c p :: ps
        | [] => [String c EmptyString]
        end
  end.

Section Codec.

Context `{GenerationCodec}.

(** Both decoders take a [str]; any other argument is a [TypeError]. *)
Definition loads_value (v : value) : outcome (list Generation) :=
  match v with
  | VStr s => loads s
  | _ => Raise TypeError
  end.

Definition json_loads_value (v : value) : outcome value :=
  match v with
  | VStr s => json_loads s
  | _ => Raise TypeError
  end.

(** What a [for] over a decoded JSON value yields. *)
Definition iterate (v : value) : outcome (list value) :=
  match v with
  | VList items => Ok items
  | VDict d => Ok (map (fun kv => VStr (fst kv)) d)
  | VStr s => Ok (map (fun c => VStr (String c EmptyString)) (list_ascii_of_string s))
  | _ => Raise TypeError
  end.

(** [Generation] applied to the entries of [generation_dict]. *)
Definition Generation_kwargs (v : value) : outcome Generation :=
  match v with
  | VDict d => Generation_init d
  | _ => Raise TypeError
  end.

Fixpoint generations_of (items : list value) : outcome (list Generation) :=
  match items with
  | [] => Ok []
  | v :: rest =>
      do g <- Generation_kwargs v;
      do gs <- generations_of rest;
      Ok (g :: gs)
  end.

(** [except json.JSONDecodeError: raise ValueError(...)]; any other
    exception of the body passes through. *)
Definition _load_generations_from_json (generations_json : value)
  : outcome (list Generation) :=
  match
    (do results <- json_loads_value generations_json;
     do items <- iterate results;
     generations_of items)
  with
  | Ok gs => Ok gs
  | Raise e => if is_JSONDecodeError e then Raise ValueError else Raise e
  end.

End Codec.

(** *** AzureCosmosDBMongoVCoreSemanticCache *)

Definition DEFAULT_DATABASE_NAME : string := "CosmosMongoVCoreCacheDB".
Definition DEFAULT_COLLECTION_NAME : string := "CosmosMongoVCoreCacheColl".

(** The configuration fixed by the constructor. [cosmosdb_client] says
    whether a client object was handed in. *)
Record AzureCosmosDBMongoVCoreSemanticCache : Type := mkMongoCache {
  cosmosdb_connection_string : string;
  cosmosdb_client : bool;
  database_name : string;
  collection_name : string;
  num_lists : Z;
  dimensions : Z;
  similarity : CosmosDBSimilarityType;
  kind : CosmosDBVectorSearchType;
  m : Z;
  ef_construction : Z;
  max_degree : Z;
  l_build : Z;
  l_search : Z;
  ef_search : Z;
  application_name : string;
  score_threshold : option float;
  compression : option CosmosDBVectorSearchCompression;
  pq_compressed_dims : option Z;
  pq_sample_size : option Z;
  oversampling : option float
}.

(** What a cache object changes: its registry [_cache_dict], the backing
    collection all its stores point to, and the log. *)
Record World : Type := mkWorld {
  _cache_dict : gmap string AzureCosmosDBMongoVCoreVectorSearch;
  collection : Collection;
  warnings : list string
}.

Definition with_collection {A : Type} (a : action Collection A) : action World A :=
  fun w =>
    let '(r, c) := a (collection w) in
    (r, mkWorld (_cache_dict w) c (warnings w)).

Definition log_warning (msg : string) : action World unit :=
  fun w => (Ok tt, mkWorld (_cache_dict w) (collection w) (warnings w ++ [msg])).

Definition _index_name (llm_string : string) : string :=
  "cache:" ++ _hash llm_string.

Section MongoCache.

Context `{GenerationCodec} `{MongoBackend} `{Embeddings}.

Variable self : AzureCosmosDBMongoVCoreSemanticCache.

(** [from_connection_string]: [db_name, collection_name = namespace.split(".")] *)
Definition from_connection_string (namespace index_name : string)
  : outcome AzureCosmosDBMongoVCoreVectorSearch :=
  match split_on "."%char namespace with
  | [_; _] => Ok (new_vector_search (Some index_name))
  | _ => Raise ValueError
  end.

Definition _get_llm_cache (llm_string : string)
  : action World AzureCosmosDBMongoVCoreVectorSearch :=
  fun w =>
    let index_name := _index_name llm_string in
    let namespace := (database_name self ++ "." ++ collection_name self)%string in
    match _cache_dict w !! index_name with
    | Some vectorstore => (Ok vectorstore, w)
    | None =>
        let created :=
          if cosmosdb_client self then Ok (new_vector_search (Some index_name))
          else from_connection_string namespace index_name in
        match created with
        | Raise e => (Raise e, w)
        | Ok vectorstore =>
            let w := mkWorld (<[index_name := vectorstore]> (_cache_dict w))
                             (collection w) (warnings w) in
            if index_exists vectorstore (collection w) then (Ok vectorstore, w)
            else
              (act _ <- with_collection (create_index vectorstore);
               pure vectorstore) w
        end
    end.

(** [self.score_threshold or 0.0] *)
Definition lookup_threshold : float :=
  match score_threshold self with
  | Some t => if float_truthy t then t else 0%float
  | None => 0%float
  end.

(** The body of the loop over the documents found. *)
Definition lookup_document (document : Document) (generations : list Generation)
  : action World (list Generation) :=
  fun w =>
    match (do v <- dict_getitem (metadata document) "return_val"; loads_value v) with
    | Ok gs => (Ok (generations ++ gs), w)
    | Raise _ =>
        (act _ <- log_warning OLDER_FORMAT_WARNING;
         act gs <- lift (do v <- dict_getitem (metadata document) "return_val";
                         _load_generations_from_json v);
         pure (generations ++ gs)) w
    end.

Fixpoint lookup_loop (results : list Document) (generations : list Generation)
  : action World (list Generation) :=
  match results with
  | [] => pure generations
  | document :: rest =>
      act generations <- lookup_document document generations;
      lookup_loop rest generations
  end.

Definition lookup (prompt llm_string : string)
  : action World (option (list Generation)) :=
  act llm_cache <- _get_llm_cache llm_string;
  act results <-
    (fun w =>
       (similarity_search llm_cache (collection w) prompt (Some 1%Z)
          (Some (kind self)) None (Some (ef_search self)) (Some lookup_threshold)
          (Some (l_search self)) None (Some (oversampling self)), w));
  act generations <-
    (if list_truthy results then lookup_loop results [] else pure []);
  pure (if list_truthy generations then Some generations else None).

(** An element of [return_val]: a [Generation], or something else. *)
Inductive cached_item : Type :=
| IsGeneration (g : Generation)
| NotGeneration (v : value).

Fixpoint check_generations (return_val : list cached_item) : outcome (list Generation) :=
  match return_val with
  | [] => Ok []
  | IsGeneration g :: rest => do gs <- check_generations rest; Ok (g :: gs)
  | NotGeneration _ :: _ => Raise ValueError
  end.

Definition update (prompt llm_string : string) (return_val : list cached_item)
  : action World unit :=
  act gens <- lift (check_generations return_val);
  act llm_cache <- _get_llm_cache llm_string;
  let meta : dict :=
    [("llm_string", VStr llm_string);
     ("prompt", VStr prompt);
     ("return_val", VStr (dumps gens))] in
  act _ <- with_collection (add_texts llm_cache [prompt] (Some [meta]) None);
  pure tt.

(** [clear], called with keyword arguments. *)
Definition clear (kwargs : dict) : action World unit :=
  act llm_string <- lift (do v <- dict_getitem kwargs "llm_string";
                          match v with
                          | VStr s => Ok s
                          | _ => Raise (AttributeError "encode")
                          end);
  fun w =>
    let index_name := _index_name llm_string in
    match _cache_dict w !! index_name with
    | Some _ => with_collection delete_many_all w
    | None => (Ok tt, w)
    end.

End MongoCache.

(** *** AzureCosmosDBNoSqlSemanticCache *)

(** A Cosmos DB account as the client shows it: databases by name, each
    with its containers and their items. *)
Definition CosmosAccount : Type := gmap string (gmap string (list dict)).

Record AzureCosmosDBNoSqlSemanticCache : Type := mkNoSqlCache {
  nosql_database_name : string;
  nosql_container_name : string
}.

(** What the NoSQL cache object changes: its registry and the account.
    The class of the stores it keeps, [AzureCosmosDBNoSqlVectorSearch] of
    [azure_cosmos_db_no_sql.py], is not embedded here; [clear] only asks
    whether the registry has one, so their type [Store] is left open. *)
Record NoSqlWorld (Store : Type) : Type := mkNoSqlWorld {
  nosql_cache_dict : gmap string Store;
  cosmos_client : CosmosAccount
}.
Arguments mkNoSqlWorld {Store} _ _.
Arguments nosql_cache_dict {Store} _.
Arguments cosmos_client {Store} _.

Definition _cache_name (llm_string : string) : string :=
  "cache:" ++ _hash llm_string.

(** [cosmos_client.delete_database(database=...)]: the whole database
    goes; a name the account does not have is an error of the client. *)
Definition delete_database {Store : Type} (database : string)
  : action (NoSqlWorld Store) unit :=
  fun w =>
    match cosmos_client w !! database with
    | Some _ =>
        (Ok tt, mkNoSqlWorld (nosql_cache_dict w) (delete database (cosmos_client w)))
    | None => (Raise (BackendError "CosmosResourceNotFoundError"), w)
    end.

Definition nosql_clear {Store : Type} (self : AzureCosmosDBNoSqlSemanticCache)
    (kwargs : dict) : action (NoSqlWorld Store) unit :=
  act llm_string <- lift (do v <- dict_getitem kwargs "llm_string";
                          match v with
                          | VStr s => Ok s
                          | _ => Raise (AttributeError "encode")
                          end);
  fun w =>
    let cache_name := _cache_name llm_string in
    match nosql_cache_dict w !! cache_name with
    | Some _ => delete_database (nosql_database_name self) w
    | None => (Ok tt, w)
    end.

End Cache.

(* ===================================================================== *)
(** ** azuresearch.py *)
(* ===================================================================== *)

Module AzureSearch.

(** The field names, read from the environment when the module loads. *)
Class FieldNames : Type := {
  FIELDS_ID : string;
  FIELDS_CONTENT : string;
  FIELDS_CONTENT_VECTOR : string;
  FIELDS_METADATA : string
}.

(** The names used when the environment sets none. *)
Definition default_field_names : FieldNames :=
  {| FIELDS_ID := "id";
     FIELDS_CONTENT := "content";
     FIELDS_CONTENT_VECTOR := "content_vector";
     FIELDS_METADATA := "metadata" |}.

Definition MAX_UPLOAD_BATCH_SIZE : Z := 1000.

(** Library calls the module makes: [str(uuid.uuid4())] (the n-th value
    drawn), [json.dumps], [json.loads], the rounding of
    [np.array(_, dtype=np.float32)] and [float] of a string. *)
Class Runtime : Type := {
  uuid4 : nat -> string;
  json_dumps : value -> outcome string;
  json_loads : string -> outcome value;
  to_float32 : float -> float;
  float_of_str : string -> outcome float
}.

(** [maximal_marginal_relevance] is imported from
    [langchain_azure_ai/vectorstores/utils.py], which is not embedded
    here: the functions below take it as given. It receives the query
    embedding, the candidate vectors, [k] and [lambda_mult] and gives
    indices into the candidates. *)
Class MarginalRelevance : Type := {
  maximal_marginal_relevance :
    list float -> list value -> Z -> float -> outcome (list Z)
}.

(** One request to the search service and its answer. *)
Record SearchRequest : Type := mkSearchRequest {
  search_text : string;
  vector : list float;
  k_nearest_neighbors : Z;
  vector_fields : string;
  filter : option string;
  query_type : option string;
  semantic_configuration : option string;
  query_caption : option string;
  query_answer : option string;
  top : Z
}.

Record SemanticAnswer : Type := mkSemanticAnswer {
  answer_key : string;
  answer_text : value;
  answer_highlights : value
}.

Record SearchResponse : Type := mkSearchResponse {
  get_answers : option (list SemanticAnswer);
  rows : list dict
}.

(** The search service behind [client] and [async_client]: the rows it
    returns for a request, and its per-document report for an upload,
    which may depend on the batches uploaded before. *)
Class SearchService : Type := {
  search : SearchRequest -> outcome SearchResponse;
  upload_report : list (list dict) -> list dict -> outcome (list IndexingResult)
}.

(** [self] of [AzureSearch], as far as the modelled methods read it. *)
Record AzureSearch : Type := mkAzureSearch {
  fields : list string;
  semantic_configuration_name : option string
}.

(** What an upload changes: the batches sent so far, and how many uuids
    were drawn. *)
Record Index : Type := mkIndex {
  uploaded : list (list dict);
  uuids_drawn : nat
}.

Section Store.

Context `{FieldNames} `{Runtime} `{MarginalRelevance} `{SearchService} `{Embeddings}.

Variable self : AzureSearch.

Definition draw_uuid : action Index string :=
  fun w => (Ok (uuid4 (uuids_drawn w)), mkIndex (uploaded w) (S (uuids_drawn w))).

Definition upload_documents (documents : list dict) : action Index (list IndexingResult) :=
  fun w => (upload_report (uploaded w) documents,
            mkIndex (uploaded w ++ [documents]) (uuids_drawn w)).

(** The document built for one text in [add_embeddings] and
    [aadd_embeddings]. *)
Definition upload_doc (key text : string) (embedding : list float) (meta : dict)
  : outcome dict :=
  do dumped <- json_dumps (VDict meta);
  let doc : dict :=
    dict_set (dict_set (dict_set (dict_set [("@search.action", VStr "upload")]
      FIELDS_ID (VStr key))
      FIELDS_CONTENT (VStr text))
      FIELDS_CONTENT_VECTOR (VList (map (fun x => VFloat (to_float32 x)) embedding)))
      FIELDS_METADATA (VStr dumped) in
  Ok (if list_truthy meta then
        dict_update doc
          (List.filter (fun kv => existsb (String.eqb (fst kv)) (fields self)) meta)
      else doc).

(** [metadatas[i] if metadatas else {}] *)
Definition metadata_at (metadatas : option (list dict)) (i : Z) : outcome dict :=
  match metadatas with
  | Some ms => if list_truthy ms then list_getitem ms i else Ok []
  | None => Ok []
  end.

Definition all_succeeded (response : list IndexingResult) : bool :=
  forallb succeeded response.

(** After the loop: the rest of the documents, if any. *)
Definition upload_rest (data : list dict) (ids : list string)
  : action Index (list string) :=
  if (Z.of_nat (length data) =? 0)%Z then pure ids
  else
    act response <- upload_documents data;
    if all_succeeded response then pure ids
    else lift (Raise (LangChainException response)).

Fixpoint add_embeddings_loop (metadatas : option (list dict))
    (keys : option (list string)) (items : list (string * list float)) (i : Z)
    (data : list dict) (ids : list string) : action Index (list string) :=
  match items with
  | [] => upload_rest data ids
  | (text, embedding) :: rest =>
      act key <-
        (if opt_list_truthy keys then lift (list_getitem (default [] keys) i)
         else
           act key <- draw_uuid;
           pure (B64.urlsafe_b64encode key));
      act meta <- lift (metadata_at metadatas i);
      act doc <- lift (upload_doc key text embedding meta);
      let data := data ++ [doc] in
      let ids := ids ++ [key] in
      if (Z.of_nat (length data) =? MAX_UPLOAD_BATCH_SIZE)%Z then
        act response <- upload_documents data;
        if negb (all_succeeded response) then
          lift (Raise (LangChainException response))
        else add_embeddings_loop metadatas keys rest (i + 1)%Z [] ids
      else add_embeddings_loop metadatas keys rest (i + 1)%Z data ids
  end.

Definition add_embeddings (text_embeddings : list (string * list float))
    (metadatas : option (list dict)) (keys : option (list string))
  : action Index (list string) :=
  add_embeddings_loop metadatas keys text_embeddings 0 [] [].

Fixpoint aadd_embeddings_loop (metadatas : option (list dict))
    (keys : option (list string)) (items : list (string * list float)) (i : Z)
    (data : list dict) (ids : list string) : action Index (list string) :=
  match items with
  | [] => upload_rest data ids
  | (text, embedding) :: rest =>
      act key <-
        (if opt_list_truthy keys then lift (list_getitem (default [] keys) i)
         else draw_uuid);
      let key := B64.urlsafe_b64encode key in
      act meta <- lift (metadata_at metadatas i);
      act doc <- lift (upload_doc key text embedding meta);
      let data := data ++ [doc] in
      let ids := ids ++ [key] in
      if (Z.of_nat (length data) =? MAX_UPLOAD_BATCH_SIZE)%Z then
        act response <- upload_documents data;
        if negb (all_succeeded response) then
          lift (Raise (LangChainException response))
        else aadd_embeddings_loop metadatas keys rest (i + 1)%Z [] ids
      else aadd_embeddings_loop metadatas keys rest (i + 1)%Z data ids
  end.

Definition aadd_embeddings (text_embeddings : list (string * list float))
    (metadatas : option (list dict)) (keys : option (list string))
  : action Index (list string) :=
  aadd_embeddings_loop metadatas keys text_embeddings 0 [] [].

(** *** Result rows *)

(** [float(v)] *)
Definition py_float (v : value) : outcome float :=
  match v with
  | VFloat x => Ok x
  | VInt n => float_of_int n
  | VBool b => Ok (if b then 1%float else 0%float)
  | VStr s => float_of_str s
  | _ => Raise TypeError
  end.

(** [json.loads(v)]: the argument must be a [str]. *)
Definition json_loads_value (v : value) : outcome value :=
  match v with
  | VStr s => json_loads s
  | _ => Raise TypeError
  end.

(** [_result_to_document]: the document, and the row as the call leaves
    it (the id is popped from it). *)
Definition _result_to_document (result : dict) : outcome (Document * dict) :=
  do fields_metadata <-
    (if dict_contains result FIELDS_METADATA then
       do v <- dict_getitem result FIELDS_METADATA;
       match v with
       | VDict d => Ok (VDict d)
       | _ => json_loads_value v
       end
     else
       Ok (VDict (List.filter
                    (fun kv => negb (existsb (String.eqb (fst kv))
                                       [FIELDS_CONTENT_VECTOR; FIELDS_CONTENT]))
                    result)));
  do '(fields_id, result) <-
    (if dict_contains result FIELDS_ID then
       do '(v, result) <- dict_pop result FIELDS_ID;
       Ok ([(FIELDS_ID, v)], result)
     else Ok ([], result));
  do content <- dict_getitem result FIELDS_CONTENT;
  do meta <- as_mapping fields_metadata;
  do doc <- Document_init content (dict_update fields_id meta);
  Ok (doc, result).

Fixpoint _results_to_documents (results : list dict)
  : outcome (list (Document * float)) :=
  match results with
  | [] => Ok []
  | result :: rest =>
      do '(doc, result) <- _result_to_document result;
      do v <- dict_getitem result "@search.score";
      do score <- py_float v;
      do docs <- _results_to_documents rest;
      Ok ((doc, score) :: docs)
  end.

Fixpoint _aresults_to_documents (results : list dict)
  : outcome (list (Document * float)) :=
  match results with
  | [] => Ok []
  | result :: rest =>
      do '(doc, result) <- _result_to_document result;
      do v <- dict_getitem result "@search.score";
      do score <- py_float v;
      do docs <- _aresults_to_documents rest;
      Ok ((doc, score) :: docs)
  end.

(** The comprehension at the head of both reorder functions. *)
Fixpoint scored_vectors (results : list dict)
  : outcome (list (Document * float * value)) :=
  match results with
  | [] => Ok []
  | result :: rest =>
      do '(doc, result) <- _result_to_document result;
      do v <- dict_getitem result "@search.score";
      do score <- py_float v;
      do vec <- dict_getitem result FIELDS_CONTENT_VECTOR;
      do docs <- scored_vectors rest;
      Ok ((doc, score, vec) :: docs)
  end.

(** [documents, scores, vectors = map(list, zip( *docs))]: the unpacking
    needs three lists, and an empty [docs] gives none. *)
Definition unzip3 (docs : list (Document * float * value))
  : outcome (list Document * list float * list value) :=
  match docs with
  | [] => Raise ValueError
  | _ => Ok (map (fun d => fst (fst d)) docs,
             map (fun d => snd (fst d)) docs,
             map snd docs)
  end.

(** The loop over the new ordering: an index of -1 ends it. *)
Fixpoint reordered (documents : list Document) (scores : list float)
    (new_ordering : list Z) (ret : list (Document * float))
  : outcome (list (Document * float)) :=
  match new_ordering with
  | [] => Ok ret
  | x :: rest =>
      if (x =? -1)%Z then Ok ret
      else
        do d <- list_getitem documents x;
        do s <- list_getitem scores x;
        reordered documents scores rest (ret ++ [(d, s)])
  end.

Definition _areorder_results_with_maximal_marginal_relevance
    (results : list dict) (query_embedding : list float)
    (lambda_mult : option float) (k : option Z)
  : outcome (list (Document * float)) :=
  do docs <- scored_vectors results;
  do '(documents, scores, vectors) <- unzip3 docs;
  do new_ordering <-
    maximal_marginal_relevance query_embedding vectors
      (default 4%Z k) (default 0.5%float lambda_mult);
  reordered documents scores new_ordering [].

Definition _reorder_results_with_maximal_marginal_relevance
    (results : list dict) (query_embedding : list float)
    (lambda_mult : option float) (k : option Z)
  : outcome (list (Document * float)) :=
  do docs <- scored_vectors results;
  if negb (list_truthy docs) then Ok []
  else
    do '(documents, scores, vectors) <- unzip3 docs;
    do new_ordering <-
      maximal_marginal_relevance query_embedding vectors
        (default 4%Z k) (default 0.5%float lambda_mult);
    reordered documents scores new_ordering [].

(** *** Searches *)

(** [_simple_search] and [_asimple_search] send the same request. *)
Definition simple_request (embedding : list float) (text_query : string)
    (k : Z) (filters : option string) : SearchRequest :=
  mkSearchRequest text_query (map to_float32 embedding) k FIELDS_CONTENT_VECTOR
                  filters None None None None k.

Definition _simple_search (embedding : list float) (text_query : string)
    (k : Z) (filters : option string) : outcome (list dict) :=
  do response <- search (simple_request embedding text_query k filters);
  Ok (rows response).

Definition _asimple_search (embedding : list float) (text_query : string)
    (k : Z) (filters : option string) : outcome (list dict) :=
  do response <- search (simple_request embedding text_query k filters);
  Ok (rows response).

(** [_aembed_query], for a store built on an [Embeddings] object. *)
Definition _aembed_query (text : string) : outcome (list float) :=
  aembed_query text.

Definition max_marginal_relevance_search_with_score (query : string)
    (k fetch_k : option Z) (lambda_mult : option float) (filters : option string)
  : outcome (list (Document * float)) :=
  do embedding <- embed_query query;
  do results <- _simple_search embedding EmptyString (default 20%Z fetch_k) filters;
  _reorder_results_with_maximal_marginal_relevance results embedding
    (Some (default 0.5%float lambda_mult)) (Some (default 4%Z k)).

Definition amax_marginal_relevance_search_with_score (query : string)
    (k fetch_k : option Z) (lambda_mult : option float) (filters : option string)
  : outcome (list (Document * float)) :=
  do embedding <- _aembed_query query;
  do results <- _asimple_search embedding EmptyString (default 20%Z fetch_k) filters;
  _areorder_results_with_maximal_marginal_relevance results embedding
    (Some (default 0.5%float lambda_mult)) (Some (default 4%Z k)).

Definition hybrid_max_marginal_relevance_search_with_score (query : string)
    (k fetch_k : option Z) (lambda_mult : option float) (filters : option string)
  : outcome (list (Document * float)) :=
  do embedding <- embed_query query;
  do results <- _simple_search embedding query (default 20%Z fetch_k) filters;
  _reorder_results_with_maximal_marginal_relevance results embedding
    (Some (default 0.5%float lambda_mult)) (Some (default 4%Z k)).

Definition ahybrid_max_marginal_relevance_search_with_score (query : string)
    (k fetch_k : option Z) (lambda_mult : option float) (filters : option string)
  : outcome (list (Document * float)) :=
  do embedding <- _aembed_query query;
  do results <- _asimple_search embedding query (default 20%Z fetch_k) filters;
  _areorder_results_with_maximal_marginal_relevance results embedding
    (Some (default 0.5%float lambda_mult)) (Some (default 4%Z k)).

(** *** Semantic hybrid search *)

Fixpoint answers_dict (semantic_answers : list SemanticAnswer) (acc : dict) : dict :=
  match semantic_answers with
  | [] => acc
  | a :: rest =>
      answers_dict rest
        (dict_set acc (answer_key a)
           (VDict [("text", answer_text a); ("highlights", answer_highlights a)]))
  end.

(** [semantic_answers_dict.get(key, default)] with the empty string as
    default: the key is hashed first. *)
Definition answers_get (semantic_answers_dict : dict) (key : value) : outcome value :=
  match key with
  | VStr s => Ok (default (VStr EmptyString) (dict_get semantic_answers_dict s))
  | VList _ | VDict _ => Raise TypeError
  | _ => Ok (VStr EmptyString)
  end.

(** The element of the comprehension that turns the rows of a semantic
    search into documents; the synchronous and the asynchronous method
    spell it alike. *)
Definition semantic_result_to_document (semantic_answers_dict : dict)
    (result : dict) : outcome (Document * float * float) :=
  do '(content, result) <- dict_pop result FIELDS_CONTENT;
  do '(id_part, result) <-
    (if dict_contains result FIELDS_ID then
       do '(v, result) <- dict_pop result FIELDS_ID;
       Ok ([(FIELDS_ID, v)], result)
     else Ok ([], result));
  do meta_part <-
    (if dict_contains result FIELDS_METADATA then
       do v <- dict_getitem result FIELDS_METADATA;
       do decoded <- json_loads_value v;
       as_mapping decoded
     else
       Ok (List.filter
             (fun kv => negb (String.eqb (fst kv) FIELDS_CONTENT_VECTOR)) result));
  let captions_field := dict_get result "@search.captions" in
  do captions <-
    (if value_truthy (default VNone captions_field) then
       let found := default (VList [VDict []]) captions_field in
       do c1 <- value_first found;
       do t <- value_getattr c1 "text";
       do c2 <- value_first found;
       do h <- value_getattr c2 "highlights";
       Ok [("text", t); ("highlights", h)]
     else Ok []);
  do answers <-
    answers_get semantic_answers_dict (default (VStr EmptyString) (dict_get result FIELDS_ID));
  let meta :=
    dict_update (dict_update id_part meta_part)
      (dict_set [("captions", VDict captions)] "answers" answers) in
  do doc <- Document_init content meta;
  do v <- dict_getitem result "@search.score";
  do score <- py_float v;
  do v <- dict_getitem result "@search.reranker_score";
  do rerank <- py_float v;
  Ok (doc, score, rerank).

Fixpoint semantic_results_to_documents (semantic_answers_dict : dict)
    (results : list dict) : outcome (list (Document * float * float)) :=
  match results with
  | [] => Ok []
  | result :: rest =>
      do d <- semantic_result_to_document semantic_answers_dict result;
      do ds <- semantic_results_to_documents semantic_answers_dict rest;
      Ok (d :: ds)
  end.

Definition semantic_request (query : string) (embedding : list float) (k : Z)
    (filters : option string) : SearchRequest :=
  mkSearchRequest query (map to_float32 embedding) k FIELDS_CONTENT_VECTOR filters
                  (Some "semantic") (semantic_configuration_name self)
                  (Some "extractive") (Some "extractive") k.

Definition semantic_hybrid_search_with_score_and_rerank (query : string)
    (k : option Z) (filters : option string)
  : outcome (list (Document * float * float)) :=
  let k := default 4%Z k in
  do embedding <- embed_query query;
  do results <- search (semantic_request query embedding k filters);
  let semantic_answers := default [] (get_answers results) in
  semantic_results_to_documents (answers_dict semantic_answers []) (rows results).

Definition asemantic_hybrid_search_with_score_and_rerank (query : string)
    (k : option Z) (filters : option string)
  : outcome (list (Document * float * float)) :=
  let k := default 4%Z k in
  do embedding <- _aembed_query query;
  do results <- search (semantic_request query embedding k filters);
  let semantic_answers := default [] (get_answers results) in
  semantic_results_to_documents (answers_dict semantic_answers []) (rows results).

End Store.

End AzureSearch.

(* ===================================================================== *)
(** ** Vocabulary of the statements *)
(* ===================================================================== *)

Module Spec.

Import MongoVCore.

(** The parameters of the nearest-neighbour search of a pipeline: what
    its first stage holds under [$search] and [cosmosSearch]. *)
Definition cosmos_search_params (pipeline : list dict) : option dict :=
  match pipeline with
  | stage :: _ =>
      match dict_get stage "$search" with
      | Some (VDict s) =>
          match dict_get s "cosmosSearch" with
          | Some (VDict params) => Some params
          | _ => None
          end
      | _ => None
      end
  | [] => None
  end.

(** The second stage of every pipeline: the similarity score under
    [similarityScore] and the whole matched document under [document]. *)
Definition score_and_document_projection : dict :=
  [("$project",
    VDict [("similarityScore", VDict [("$meta", VStr "searchScore")]);
           ("document", VStr "$$ROOT")])].

(** The [filter] entry a pre-filter leads to: none for [None] and for an
    empty mapping. *)
Definition filter_entry (pre_filter : option dict) : option value :=
  match pre_filter with
  | Some f => if list_truthy f then Some (VDict f) else None
  | None => None
  end.

(** The entries every nearest-neighbour search carries. *)
Definition carries (params : dict) (embeddings : list float) (path : string)
    (k : Z) (pre_filter : option dict) : Prop :=
  dict_get params "vector" = Some (VList (map VFloat embeddings))
  /\ dict_get params "path" = Some (VStr path)
  /\ dict_get params "k" = Some (VInt k)
  /\ dict_get params "filter" = filter_entry pre_filter.

(** A row whose [similarityScore] compares strictly below [t]. *)
Definition below_threshold (t : float) (row : dict) : bool :=
  match dict_get row "similarityScore" with
  | Some s =>
      match value_lt_float s t with
      | Ok true => true
      | _ => false
      end
  | None => false
  end.

(** A backend that answers as [B] does, with the rows whose score is
    below [t] taken out of every cursor. *)
Definition without_rows_below (t : float) (B : MongoBackend) : MongoBackend :=
  {| aggregate coll pipeline :=
       do cursor <- @aggregate B coll pipeline;
       Ok (List.filter (fun row => negb (below_threshold t row)) cursor) |}.



(** The world with every document of the backing collection deleted. *)
Definition emptied (w : Cache.World) : Cache.World :=
  Cache.mkWorld (Cache._cache_dict w)
    (mkCollection (coll_name (Cache.collection w)) []
                  (coll_indexes (Cache.collection w))
                  (coll_next_id (Cache.collection w)))
    (Cache.warnings w).

(** The model signature a stored cache entry was written for. *)
Definition signature_of (entry : dict) : option value :=
  match dict_get entry "metadata" with
  | Some (VDict meta) => dict_get meta "llm_string"
  | _ => None
  end.

(** The keyword arguments of [clear(llm_string=...)]. *)
Definition for_signature (llm_string : string) : dict :=
  [("llm_string", VStr llm_string)].

(** *** Uploads *)

Section Trace.

Context `{AzureSearch.SearchService}.




End Trace.

End Spec.


(* ===================================================================== *)
(** ** Sample collaborators and data *)
(* ===================================================================== *)

(** Stand-ins for the embedding model, the codecs and the backends, in
    the manner of the fakes a test suite plugs in, and a few rows and
    objects; the examples and the instances of the theorems run on them. *)
Module Samples.

Import MongoVCore Cache.

(** Every text embeds to the same vector. *)
Definition constant_embeddings : Embeddings :=
  {| embed_query _ := Ok [1%float; 0%float];
     embed_documents texts := Ok (map (fun _ => [1%float; 0%float]) texts);
     aembed_query _ := Ok [1%float; 0%float] |}.

Definition hello : Generation := mkGeneration "hello" None.
Definition hi : Generation := mkGeneration "hi" None.

(** A codec that reads two payloads: ["structured"] with the structured
    codec, ["legacy"] as the legacy JSON of one generation. Any other
    payload is refused by both decoders as text that is not JSON. *)
Definition two_payload_codec : GenerationCodec :=
  {| loads s := if String.eqb s "structured" then Ok [hello] else Raise JSONDecodeError;
     dumps _ := "structured";
     Cache.json_loads s :=
       if String.eqb s "legacy" then Ok (VList [VDict [("text", VStr "hi")]])
       else Raise JSONDecodeError;
     Generation_init d :=
       match dict_get d "text" with
       | Some (VStr s) => Ok (mkGeneration s None)
       | _ => Raise ValidationError
       end |}.

(** A row of the cursor, as the [$project] stage shapes it. *)
Definition cursor_row (score : float) (oid : Z) (content : string) (meta : dict) : dict :=
  [("_id", VInt oid);
   ("similarityScore", VFloat score);
   ("document",
    VDict [("_id", VInt oid);
           ("textContent", VStr content);
           ("vectorContent", VList [VFloat 1%float; VFloat 0%float]);
           ("metadata", VDict meta)])].

(** A backend whose every cursor has the given rows. *)
Definition fixed_cursor (cursor : list dict) : MongoBackend :=
  {| aggregate _ _ := Ok cursor |}.

Definition two_rows : list dict :=
  [cursor_row (-0.5)%float 1 "question"
     [("llm_string", VStr "gpt"); ("prompt", VStr "question");
      ("return_val", VStr "legacy")];
   cursor_row 0.75%float 2 "question"
     [("llm_string", VStr "gpt"); ("prompt", VStr "question");
      ("return_val", VStr "structured")]].

Definition cached (payload : string) : dict :=
  [("llm_string", VStr "gpt"); ("prompt", VStr "question"); ("return_val", VStr payload)].

(** A cache over a client that was handed in, with no score threshold. *)
Definition sample_cache : AzureCosmosDBMongoVCoreSemanticCache :=
  mkMongoCache "mongodb://localhost" true
    DEFAULT_DATABASE_NAME DEFAULT_COLLECTION_NAME
    100 1536 COS VECTOR_IVF 16 64 32 50 40 40 "langchainpy"
    None None None None None.

Definition empty_collection : Collection :=
  mkCollection DEFAULT_COLLECTION_NAME [] [] 0.

(** A cache object right after construction. *)
Definition fresh_world : World := mkWorld ∅ empty_collection [].

(** The NoSQL cache, and an account holding its database with one cached
    entry. *)
Definition sample_nosql_cache : AzureCosmosDBNoSqlSemanticCache :=
  mkNoSqlCache "CosmosNoSqlCacheDB" "CosmosNoSqlCacheContainer".

Definition sample_account : CosmosAccount :=
  {[ "CosmosNoSqlCacheDB" :=
       {[ "CosmosNoSqlCacheContainer" := [cached "structured"] ]} ]}.

(** *** The search service *)

(** The runtime: one uuid per draw, numbered; [json.dumps] and
    [json.loads] of the empty mapping only; no rounding. *)
Definition sample_runtime : AzureSearch.Runtime :=
  {| AzureSearch.uuid4 n :=
       ("123e4567-e89b-42d3-a456-42661417400" ++
        String (ascii_of_nat (48 + Nat.modulo n 10)) EmptyString)%string;
     AzureSearch.json_dumps v :=
       match v with
       | VDict [] => Ok "{}"
       | _ => Raise TypeError
       end;
     AzureSearch.json_loads s :=
       if String.eqb s "{}" then Ok (VDict []) else Raise JSONDecodeError;
     AzureSearch.to_float32 x := x;
     AzureSearch.float_of_str _ := Raise ValueError |}.

Definition report_for (ok : dict -> bool) (documents : list dict) : list IndexingResult :=
  map (fun d =>
         mkIndexingResult
           (match dict_get d "id" with Some (VStr s) => s | _ => EmptyString end)
           (ok d))
      documents.

(** A service that finds no row and accepts every document. *)
Definition accepting_service : AzureSearch.SearchService :=
  {| AzureSearch.search _ := Ok (AzureSearch.mkSearchResponse None []);
     AzureSearch.upload_report _ documents := Ok (report_for (fun _ => true) documents) |}.

(** A service that refuses the document whose id is ["k500"]. *)
Definition refusing_k500 : AzureSearch.SearchService :=
  {| AzureSearch.search _ := Ok (AzureSearch.mkSearchResponse None []);
     AzureSearch.upload_report _ documents :=
       Ok (report_for
             (fun d => match dict_get d "id" with
                       | Some (VStr s) => negb (String.eqb s "k500")
                       | _ => true
                       end)
             documents) |}.

(** Picks the candidates in the order they came. *)
Definition first_k : AzureSearch.MarginalRelevance :=
  {| AzureSearch.maximal_marginal_relevance _ vectors k _ :=
       Ok (map Z.of_nat (seq 0 (Nat.min (Z.to_nat k) (length vectors)))) |}.

Definition sample_store : AzureSearch.AzureSearch :=
  AzureSearch.mkAzureSearch ["id"; "content"; "content_vector"; "metadata"] None.

Definition empty_index : AzureSearch.Index := AzureSearch.mkIndex [] 0.

(** The texts ["t1"], ["t2"], ... and the keys ["k1"], ["k2"], ... *)
Definition numbered (prefix : string) (n : nat) : string :=
  (prefix ++ NilZero.string_of_uint (Nat.to_uint n))%string.

Definition texts_upto (n : nat) : list (string * list float) :=
  map (fun i => (numbered "t" i, [1%float; 0%float])) (seq 1 n).

Definition keys_upto (n : nat) : list string :=
  map (numbered "k") (seq 1 n).

(** A row of the search service whose metadata field holds a decoded
    mapping instead of a JSON string. *)
Definition decoded_metadata_row : dict :=
  [("id", VStr "doc1");
   ("content", VStr "some text");
   ("metadata", VDict [("source", VStr "a.txt")]);
   ("@search.score", VFloat 0.75%float);
   ("@search.reranker_score", VFloat 2%float)].

End Samples.

(* ===================================================================== *)
(** ** azure_cosmos_db_mongo_vcore.py: what is stored, and MMR search *)
(* ===================================================================== *)

Module MongoVCoreStored.

Import MongoVCore.

(** The document [_insert_texts] builds for one text, as the collection
    holds it once [insert_many] gave it the identifier [oid]. *)
Definition stored_document (self : AzureCosmosDBMongoVCoreVectorSearch)
    (text : string) (meta : dict) (embedding : list float) (oid : value) : dict :=
  dict_set
    (dict_set (dict_set [(_text_key self, VStr text)]
                        (_embedding_key self) (float_list embedding))
              "metadata" (VDict meta))
    "_id" oid.

(** The documents stored for a run of texts, numbered from [next]. *)
Fixpoint stored_documents (self : AzureCosmosDBMongoVCoreVectorSearch)
    (entries : list (string * dict * list float)) (next : Z) : list dict :=
  match entries with
  | [] => []
  | (t, m, e) :: rest =>
      stored_document self t m e (VInt next)
      :: stored_documents self rest (next + 1)%Z
  end.

(** The identifiers given out from [next] on, [n] of them. *)
Fixpoint identifiers (next : Z) (n : nat) : list value :=
  match n with
  | O => []
  | S n' => VInt next :: identifiers (next + 1)%Z n'
  end.

(** The text key, the embedding key, ["metadata"] and ["_id"] differ
    from one another, as they do for the default keys. *)
Definition distinct_keys (self : AzureCosmosDBMongoVCoreVectorSearch) : bool :=
  negb (String.eqb (_text_key self) (_embedding_key self))
  && negb (String.eqb (_text_key self) "metadata")
  && negb (String.eqb (_text_key self) "_id")
  && negb (String.eqb (_embedding_key self) "metadata")
  && negb (String.eqb (_embedding_key self) "_id").

(** The metadata of a stored document as the result loop reads it: the
    mapping under ["metadata"], or the empty mapping when there is none. *)
Definition stored_metadata (document : dict) : option dict :=
  match dict_get document "metadata" with
  | Some (VDict m) => Some m
  | Some _ => None
  | None => Some []
  end.

(** A stored document that a search found, with the score it got. *)
Record Hit : Type := mkHit {
  hit_score : float;
  hit_text : string;
  hit_meta : dict;
  hit_embedding : list float;
  hit_id : value
}.

(** The row of the cursor for a hit, as the [$project] stage shapes it. *)
Definition hit_row (self : AzureCosmosDBMongoVCoreVectorSearch) (h : Hit) : dict :=
  [("_id", hit_id h);
   ("similarityScore", VFloat (hit_score h));
   ("document",
    VDict (stored_document self (hit_text h) (hit_meta h) (hit_embedding h) (hit_id h)))].

(** What the result loop makes of a hit: the text as content, the stored
    metadata with the identifier under ["_id"], and with the vector under
    the embedding key when it was asked for. *)
Definition hit_result (self : AzureCosmosDBMongoVCoreVectorSearch)
    (with_embedding : bool) (h : Hit) : Document * value :=
  (mkDocument (hit_text h)
     (if with_embedding
      then dict_set (dict_set (hit_meta h) "_id" (hit_id h))
                    (_embedding_key self) (float_list (hit_embedding h))
      else dict_set (hit_meta h) "_id" (hit_id h)),
   VFloat (hit_score h)).

(** The hits whose score is not below [t]. *)
Definition kept (t : float) (hits : list Hit) : list Hit :=
  List.filter (fun h => negb (PrimFloat.ltb (hit_score h) t)) hits.

(** The pairs [zip(texts, _metadatas)] of [add_texts]. *)
Definition text_metadata_pairs (texts : list string) (metadatas : option (list dict))
  : list (string * dict) :=
  combine texts
    (match metadatas with
     | Some ms => if list_truthy ms then ms else map (fun _ => []) texts
     | None => map (fun _ => []) texts
     end).

(** The embedding model gives one vector for each text of a batch. *)
Definition one_vector_per_text (E : Embeddings) : Prop :=
  forall texts vectors,
    @embed_documents E texts = Ok vectors -> length vectors = length texts.

(** What a run of [add_texts] leaves behind once it has returned [ids]:
    one document for each text, in order, after the documents the
    collection had, numbered from the collection's next identifier. *)
Definition stored_after (self : AzureCosmosDBMongoVCoreVectorSearch)
    (coll coll' : Collection)
    (texts : list string) (metas : list dict) (ids : list value) : Prop :=
  exists vectors : list (list float),
    length vectors = length texts
    /\ coll_documents coll'
       = coll_documents coll
         ++ stored_documents self (zip3 texts metas vectors) (coll_next_id coll)
    /\ ids = identifiers (coll_next_id coll) (length texts)
    /\ coll_name coll' = coll_name coll
    /\ coll_indexes coll' = coll_indexes coll
    /\ coll_next_id coll' = (coll_next_id coll + Z.of_nat (length texts))%Z.

Section Mmr.

Context `{MongoBackend} `{Embeddings} `{AzureSearch.MarginalRelevance}.

Variable self : AzureCosmosDBMongoVCoreVectorSearch.

(** [[doc.metadata[self._embedding_key] for doc, _ in docs]] *)
Fixpoint embedding_column (docs : list (Document * value)) : outcome (list value) :=
  match docs with
  | [] => Ok []
  | (doc, _) :: rest =>
      do v <- dict_getitem (metadata doc) (_embedding_key self);
      do vs <- embedding_column rest;
      Ok (v :: vs)
  end.

(** [[docs[i][0] for i in mmr_doc_indexes]] *)
Fixpoint documents_at (docs : list (Document * value)) (indexes : list Z)
  : outcome (list Document) :=
  match indexes with
  | [] => Ok []
  | i :: rest =>
      do d <- list_getitem docs i;
      do ds <- documents_at docs rest;
      Ok (fst d :: ds)
  end.

Definition max_marginal_relevance_search_by_vector (coll : Collection)
    (embedding : list float) (k fetch_k : option Z) (lambda_mult : option float)
    (kind : option CosmosDBVectorSearchType) (pre_filter : option dict)
    (ef_search : option Z) (score_threshold : option float)
    (l_search : option Z) (with_embedding : option bool)
    (oversampling : option (option float)) : outcome (list Document) :=
  do docs <-
    _similarity_search_with_score self coll embedding
      (Some (default 20%Z fetch_k)) (Some (default VECTOR_IVF kind)) pre_filter
      (Some (default 40%Z ef_search)) (Some (default 0%float score_threshold))
      (Some (default 40%Z l_search)) (Some (default false with_embedding))
      (Some (default (Some 1%float) oversampling));
  do vectors <- embedding_column docs;
  do mmr_doc_indexes <-
    AzureSearch.maximal_marginal_relevance embedding vectors
      (default 4%Z k) (default 0.5%float lambda_mult);
  documents_at docs mmr_doc_indexes.

Definition max_marginal_relevance_search (coll : Collection)
    (query : string) (k fetch_k : option Z) (lambda_mult : option float)
    (kind : option CosmosDBVectorSearchType) (pre_filter : option dict)
    (ef_search : option Z) (score_threshold : option float)
    (l_search : option Z) (with_embedding : option bool)
    (oversampling : option (option float)) : outcome (list Document) :=
  do embeddings <- embed_query query;
  max_marginal_relevance_search_by_vector coll embeddings
    (Some (default 4%Z k)) (Some (default 20%Z fetch_k))
    (Some (default 0.5%float lambda_mult))
    (Some (default VECTOR_IVF kind)) pre_filter
    (Some (default 40%Z ef_search)) (Some (default 0%float score_threshold))
    (Some (default 40%Z l_search)) (Some (default false with_embedding))
    (Some (default (Some 1%float) oversampling)).

(** The pipeline [max_marginal_relevance_search_by_vector] sends. *)
Definition mmr_pipeline (embedding : list float) (fetch_k : option Z)
    (kind : option CosmosDBVectorSearchType) (pre_filter : option dict)
    (ef_search l_search : option Z) : list dict :=
  search_pipeline self embedding
    (Some (default 20%Z fetch_k)) (Some (default VECTOR_IVF kind)) pre_filter
    (Some (default 40%Z ef_search)) (Some (default 40%Z l_search)).

End Mmr.

(** Two stored documents as a search found them: one scored above zero,
    one below. *)
Definition sample_hits : list Hit :=
  [mkHit 0.75%float "first" [("source", VStr "a.txt")] [1%float; 0%float] (VInt 1);
   mkHit (-0.5)%float "second" [] [0%float; 1%float] (VInt 2)].

End MongoVCoreStored.
(* ===================================================================== *)
(** ** The library functions, on known vectors *)
(* ===================================================================== *)

Module LibraryVectors.

Example urlsafe_b64encode_doc1 : B64.urlsafe_b64encode "doc1" = "ZG9jMQ==".
Proof. reflexivity. Qed.

Example urlsafe_b64encode_uuid :
  B64.urlsafe_b64encode "123e4567-e89b-42d3-a456-426614174000"
  = "MTIzZTQ1NjctZTg5Yi00MmQzLWE0NTYtNDI2NjE0MTc0MDAw".
Proof. reflexivity. Qed.

Example urlsafe_b64encode_high_bits :
  B64.urlsafe_b64encode (String (ascii_of_N 251) (String (ascii_of_N 255) EmptyString)) = "-_8=".
Proof. reflexivity. Qed.

Example hexdigest_empty :
  Sha256.hexdigest EmptyString = "e3b0c44298fc1c149afbf4c8996fb92427ae41e4649b934ca495991b7852b855".
Proof. vm_compute. reflexivity. Qed.

Example hexdigest_abc :
  Sha256.hexdigest "abc" = "ba7816bf8f01cfea414140de5dae2223b00361a396177a9cb410ff61f20015ad".
Proof. vm_compute. reflexivity. Qed.

Example hexdigest_two_blocks :
  Sha256.hexdigest "abcdbcdecdefdefgefghfghighijhijkijkljklmklmnlmnomnopnopq"
  = "248d6a61d20638b8e5c026930c3e6039a33ce45964ff2167f6ecedd419db06c1".
Proof. vm_compute. reflexivity. Qed.

Example index_name_of_signature :
  Cache._index_name "abc"
  = "cache:ba7816bf8f01cfea414140de5dae2223b00361a396177a9cb410ff61f20015ad".
Proof. vm_compute. reflexivity. Qed.

Example float_of_int_rounds :
  float_of_int 3 = Ok 3%float /\ float_of_int (2 ^ 1024) = Raise OverflowError.
Proof. split; vm_compute; reflexivity. Qed.

Example int_below_float :
  value_lt_float (VInt (-1)) 0%float = Ok true
  /\ value_lt_float (VInt 0) 0%float = Ok false
  /\ value_lt_float (VFloat (-0.5)%float) 0%float = Ok true
  /\ value_lt_float (VStr "0.1") 0%float = Raise TypeError.
Proof. repeat split; vm_compute; reflexivity. Qed.

End LibraryVectors.

(* ===================================================================== *)
(** ** Dictionaries *)
(* ===================================================================== *)

Module PyFacts.

Lemma dict_get_set (d : dict) (k k' : string) (v : value) :
  dict_get (dict_set d k v) k'
  = if String.eqb k' k then Some v else dict_get d k'.
Proof.
  induction d as [|[k0 v0] d IH]; simpl.
  - rewrite String.eqb_sym. reflexivity.
  - destruct (String.eqb k0 k) eqn:E0; simpl.
    + apply String.eqb_eq in E0. subst k0.
      rewrite (String.eqb_sym k k').
      destruct (String.eqb k' k); reflexivity.
    + destruct (String.eqb k0 k') eqn:E1.
      * apply String.eqb_eq in E1. subst k0. rewrite E0. reflexivity.
      * exact IH.
Qed.

Lemma dict_get_remove_other (d : dict) (k k' : string) :
  String.eqb k k' = false ->
  dict_get (dict_remove d k) k' = dict_get d k'.
Proof.
  intros Hne. induction d as [|[k0 v0] d IH]; [reflexivity|].
  unfold dict_remove in *. simpl.
  destruct (String.eqb k0 k) eqn:E0; simpl.
  - apply String.eqb_eq in E0. subst k0. rewrite Hne. exact IH.
  - rewrite IH. reflexivity.
Qed.

Lemma dict_get_remove_same (d : dict) (k : string) :
  dict_get (dict_remove d k) k = None.
Proof.
  induction d as [|[k0 v0] d IH]; [reflexivity|].
  unfold dict_remove in *. simpl.
  destruct (String.eqb k0 k) eqn:E0; simpl; [exact IH|].
  rewrite E0. exact IH.
Qed.

End PyFacts.

(* ===================================================================== *)
(** ** Properties of the Mongo vCore query builder and result loop *)
(* ===================================================================== *)

Module MongoVCoreFacts.

Import MongoVCore Spec PyFacts.

Section Pipelines.

Variable self : AzureCosmosDBMongoVCoreVectorSearch.

Lemma add_pre_filter_get_other (params : dict) (pre_filter : option dict) (key : string) :
  String.eqb key "filter" = false ->
  dict_get (add_pre_filter params pre_filter) key = dict_get params key.
Proof.
  intros Hk. unfold add_pre_filter.
  destruct pre_filter as [f|]; [|reflexivity].
  destruct (list_truthy f); [|reflexivity].
  rewrite dict_get_set, Hk. reflexivity.
Qed.

(** [C7] Building a DISKANN request without an [l_search] argument gives a
    request whose [lSearch] parameter is 40, both from the builder itself
    and from the dispatch of [_similarity_search_with_score]; the builder
    is a total function, so it does not fail. *)
Theorem diskann_l_search_defaults_to_40
    (embeddings : list float) (k : option Z) (pre_filter : option dict)
    (oversampling : option (option float)) (ef_search : option Z) :
  (exists params,
      cosmos_search_params
        (_get_pipeline_vector_diskann self embeddings k None pre_filter oversampling)
      = Some params
      /\ dict_get params "lSearch" = Some (VInt 40))
  /\ (exists params,
      cosmos_search_params
        (search_pipeline self embeddings k (Some VECTOR_DISKANN) pre_filter ef_search None)
      = Some params
      /\ dict_get params "lSearch" = Some (VInt 40)).
Proof.
  split; eexists; (split; [reflexivity|]);
    (rewrite add_pre_filter_get_other; reflexivity).
Qed.

Lemma add_pre_filter_get_filter (params : dict) (pre_filter : option dict) :
  dict_get params "filter" = None ->
  dict_get (add_pre_filter params pre_filter) "filter" = filter_entry pre_filter.
Proof.
  intros Hnone. unfold add_pre_filter, filter_entry.
  destruct pre_filter as [f|]; [|exact Hnone].
  destruct (list_truthy f); [|exact Hnone].
  rewrite dict_get_set. reflexivity.
Qed.

Ltac params_entry :=
  first
    [ rewrite add_pre_filter_get_filter; reflexivity
    | rewrite add_pre_filter_get_other; reflexivity ].

(** [C8], as the code has it: for each index kind the builder gives a
    pipeline of exactly two stages. The first is a [$search] whose
    [cosmosSearch] parameters carry the vector, the embedding path, [k],
    the parameter of the kind ([efSearch] for HNSW, [lSearch] for DISKANN)
    and a [filter] entry exactly when the pre-filter is a non-empty
    mapping, in which case the entry is that mapping; the second projects
    the similarity score and the full matched document. *)
Theorem pipeline_two_stages
    (embeddings : list float) (k : option Z) (pre_filter : option dict)
    (oversampling : option (option float)) (ef_search l_search : option Z) :
  (exists params,
      _get_pipeline_vector_ivf self embeddings k pre_filter oversampling
      = [ [("$search", VDict [("cosmosSearch", VDict params);
                              ("returnStoredSource", VBool true)])];
          score_and_document_projection ]
      /\ carries params embeddings (_embedding_key self) (default 4%Z k) pre_filter)
  /\ (exists params,
      _get_pipeline_vector_hnsw self embeddings k ef_search pre_filter oversampling
      = [ [("$search", VDict [("cosmosSearch", VDict params)])];
          score_and_document_projection ]
      /\ carries params embeddings (_embedding_key self) (default 4%Z k) pre_filter
      /\ dict_get params "efSearch" = Some (VInt (default 40%Z ef_search)))
  /\ (exists params,
      _get_pipeline_vector_diskann self embeddings k l_search pre_filter oversampling
      = [ [("$search", VDict [("cosmosSearch", VDict params)])];
          score_and_document_projection ]
      /\ carries params embeddings (_embedding_key self) (default 4%Z k) pre_filter
      /\ dict_get params "lSearch" = Some (VInt (default 40%Z l_search))).
Proof.
  unfold carries.
  repeat split; eexists; (split; [reflexivity|]); repeat split; params_entry.
Qed.

End Pipelines.

(** [C8], as it is worded, fails: an empty mapping handed in as the
    pre-filter is a pre-filter that was supplied, and the request has no
    [filter] entry. *)
Lemma empty_pre_filter_leaves_no_filter_entry :
  exists pre_filter params,
    pre_filter = Some ([] : dict)
    /\ pre_filter <> None
    /\ cosmos_search_params
         (_get_pipeline_vector_hnsw (new_vector_search None) [1%float]
            (Some 4%Z) (Some 40%Z) pre_filter None)
       = Some params
    /\ dict_contains params "filter" = false.
Proof.
  eexists; eexists. split; [reflexivity|]. split; [discriminate|].
  split; reflexivity.
Qed.

(** *** The loop over the cursor *)

Section Cursor.

Variable self : AzureCosmosDBMongoVCoreVectorSearch.
Variable t : float.
Variable with_embedding : bool.

Lemma row_below_is_skipped (row : dict) :
  below_threshold t row = true ->
  row_to_doc self t with_embedding row = Ok None.
Proof.
  unfold below_threshold, row_to_doc, dict_pop.
  destruct (dict_get row "similarityScore") as [s|]; [|discriminate].
  simpl. destruct (value_lt_float s t) as [[|]|]; try discriminate.
  reflexivity.
Qed.

Lemma row_kept_is_not_below (row : dict) (doc : Document) (score : value) :
  row_to_doc self t with_embedding row = Ok (Some (doc, score)) ->
  value_lt_float score t = Ok false.
Proof.
  unfold row_to_doc, dict_pop.
  destruct (dict_get row "similarityScore") as [s|]; [|discriminate].
  simpl. destruct (value_lt_float s t) as [[|]|] eqn:Hlt; try discriminate.
  simpl.
  destruct (dict_get _ "document") as [dof|]; [|discriminate]. simpl.
  destruct (as_popable dof) as [fields|]; [|discriminate]. simpl.
  destruct (dict_get fields (_text_key self)) as [text|]; [|discriminate]. simpl.
  destruct (dict_pop_default _ "metadata" _) as [meta fields'].
  destruct (dict_get fields' "_id") as [oid|]; [|discriminate]. simpl.
  destruct (value_setitem meta "_id" oid) as [meta'|]; [|discriminate]. simpl.
  destruct with_embedding.
  - destruct (dict_get _ (_embedding_key self)) as [emb|]; [|discriminate]. simpl.
    destruct (Document_init text _) as [d|]; [|discriminate]. simpl.
    intros E. injection E as _ <-. exact Hlt.
  - simpl. destruct (Document_init text _) as [d|]; [|discriminate]. simpl.
    intros E. injection E as _ <-. exact Hlt.
Qed.

(** Rows below the threshold leave no trace in what the loop returns. *)
Lemma scan_cursor_discards_rows_below (cursor : list dict) :
  forall docs,
    scan_cursor self t with_embedding cursor docs
    = scan_cursor self t with_embedding
        (List.filter (fun row => negb (below_threshold t row)) cursor) docs.
Proof.
  induction cursor as [|row rest IH]; intros docs; [reflexivity|].
  simpl. destruct (below_threshold t row) eqn:Hb; simpl.
  - rewrite (row_below_is_skipped row Hb). simpl. apply IH.
  - destruct (row_to_doc self t with_embedding row) as [r|e]; simpl; [|reflexivity].
    apply IH.
Qed.

Lemma scan_cursor_scores_not_below (cursor : list dict) :
  forall docs out,
    Forall (fun d => value_lt_float (snd d) t = Ok false) docs ->
    scan_cursor self t with_embedding cursor docs = Ok out ->
    Forall (fun d => value_lt_float (snd d) t = Ok false) out.
Proof.
  induction cursor as [|row rest IH]; intros docs out Hdocs; simpl.
  - intros E. injection E as <-. exact Hdocs.
  - destruct (row_to_doc self t with_embedding row) as [r|e] eqn:Hrow; simpl;
      [|discriminate].
    apply IH. destruct r as [[doc score]|]; [|exact Hdocs].
    apply Forall_app. split; [exact Hdocs|].
    constructor; [|constructor]. simpl.
    exact (row_kept_is_not_below row doc score Hrow).
Qed.

End Cursor.

End MongoVCoreFacts.

(* ===================================================================== *)
(** ** Properties of the semantic caches *)
(* ===================================================================== *)

Module CacheFacts.

Import MongoVCore Cache Spec Samples.

Section Thresholds.

Context {C : GenerationCodec} {B : MongoBackend} {E : Embeddings}.

Lemma search_discards_rows_below (self : AzureCosmosDBMongoVCoreVectorSearch)
    (coll : Collection) (embeddings : list float) (k : option Z)
    (kind : option CosmosDBVectorSearchType) (pre_filter : option dict)
    (ef_search : option Z) (score_threshold : option float) (l_search : option Z)
    (with_embedding : option bool) (oversampling : option (option float)) :
  @_similarity_search_with_score self B coll embeddings k kind pre_filter
     ef_search score_threshold l_search with_embedding oversampling
  = @_similarity_search_with_score self
     (without_rows_below (default 0%float score_threshold) B)
     coll embeddings k kind pre_filter
     ef_search score_threshold l_search with_embedding oversampling.
Proof.
  unfold _similarity_search_with_score. simpl.
  destruct (aggregate coll _) as [cursor|e]; simpl; [|reflexivity].
  apply MongoVCoreFacts.scan_cursor_discards_rows_below.
Qed.

Lemma similarity_search_discards_rows_below
    (self : AzureCosmosDBMongoVCoreVectorSearch)
    (coll : Collection) (query : string) (k : option Z)
    (kind : option CosmosDBVectorSearchType) (pre_filter : option dict)
    (ef_search : option Z) (score_threshold : option float) (l_search : option Z)
    (with_embedding : option bool) (oversampling : option (option float)) :
  @similarity_search self B E coll query k kind pre_filter
     ef_search score_threshold l_search with_embedding oversampling
  = @similarity_search self
     (without_rows_below (default 0%float score_threshold) B) E
     coll query k kind pre_filter
     ef_search score_threshold l_search with_embedding oversampling.
Proof.
  unfold similarity_search, similarity_search_with_score.
  destruct (embed_query query) as [embeddings|e]; simpl; [|reflexivity].
  rewrite search_discards_rows_below. reflexivity.
Qed.

(** [C10] With no score threshold asked for, the threshold is the
    default 0.0: the rows of the cursor whose [similarityScore] is strictly
    below 0.0 leave no trace in what [_similarity_search_with_score] and
    [similarity_search] return, and no returned score is below 0.0. The
    semantic cache configured with [score_threshold = None] searches with
    the threshold 0.0, so its [lookup] does not see such rows either. *)
Theorem negative_scores_are_discarded
    (cache : AzureCosmosDBMongoVCoreSemanticCache)
    (Hnone : score_threshold cache = None)
    (self : AzureCosmosDBMongoVCoreVectorSearch)
    (coll : Collection) (embeddings : list float) (k : option Z)
    (kind : option CosmosDBVectorSearchType) (pre_filter : option dict)
    (ef_search l_search : option Z)
    (with_embedding : option bool) (oversampling : option (option float))
    (prompt llm_string : string) (w : World) :
  @_similarity_search_with_score self B coll embeddings k kind pre_filter
     ef_search None l_search with_embedding oversampling
  = @_similarity_search_with_score self (without_rows_below 0%float B)
     coll embeddings k kind pre_filter
     ef_search None l_search with_embedding oversampling
  /\ (forall out,
        @_similarity_search_with_score self B coll embeddings k kind pre_filter
          ef_search None l_search with_embedding oversampling = Ok out ->
        Forall (fun d => value_lt_float (snd d) 0%float = Ok false) out)
  /\ @similarity_search self B E coll prompt k kind pre_filter
       ef_search None l_search with_embedding oversampling
     = @similarity_search self (without_rows_below 0%float B) E coll prompt k kind
       pre_filter ef_search None l_search with_embedding oversampling
  /\ lookup_threshold cache = 0%float
  /\ @lookup C B E cache prompt llm_string w
     = @lookup C (without_rows_below 0%float B) E cache prompt llm_string w.
Proof.
  assert (Ht : lookup_threshold cache = 0%float)
    by (unfold lookup_threshold; rewrite Hnone; reflexivity).
  split; [exact (search_discards_rows_below self coll embeddings k kind pre_filter
                   ef_search None l_search with_embedding oversampling)|].
  split.
  - intros out. unfold _similarity_search_with_score.
    destruct (aggregate coll _) as [cursor|e]; simpl; [|discriminate].
    apply MongoVCoreFacts.scan_cursor_scores_not_below. constructor.
  - split; [exact (similarity_search_discards_rows_below self coll prompt k kind
                     pre_filter ef_search None l_search with_embedding oversampling)|].
    split; [exact Ht|].
    unfold lookup, and_then.
    destruct (_get_llm_cache cache llm_string w) as [[llm_cache|e] w']; [|reflexivity].
    rewrite similarity_search_discards_rows_below. simpl. rewrite Ht. reflexivity.
Qed.

End Thresholds.

(** An instance: the cache without a threshold, over a cursor with a row
    of score -0.5 before a row of score 0.75. *)
Lemma negative_scores_are_discarded_instance :
  score_threshold sample_cache = None
  /\ @lookup two_payload_codec (fixed_cursor two_rows)
       constant_embeddings sample_cache "question" "gpt" fresh_world
     = @lookup two_payload_codec (without_rows_below 0%float (fixed_cursor two_rows))
       constant_embeddings sample_cache "question" "gpt" fresh_world.
Proof.
  split; [reflexivity|].
  apply (@negative_scores_are_discarded two_payload_codec (fixed_cursor two_rows)
           constant_embeddings sample_cache eq_refl
           (new_vector_search None) empty_collection [] None None None None None
           None None "question" "gpt" fresh_world).
Defined.

(** The same lookup, run: the generation cached under the row of score
    -0.5 is not returned. *)
Example lookup_skips_negative_row :
  fst (@lookup two_payload_codec (fixed_cursor two_rows)
         constant_embeddings sample_cache "question" "gpt" fresh_world)
  = Ok (Some [hello]).
Proof. vm_compute. reflexivity. Qed.

(** *** Decoding of the cached payload *)

Section Decoding.

Context {C : GenerationCodec} {B : MongoBackend} {E : Embeddings}.

Variable cache : AzureCosmosDBMongoVCoreSemanticCache.



End Decoding.



(** *** [clear] *)

(** A store that [lookup] or [update] resolved is in the registry under
    the index name of its model signature, and stays there. *)
Lemma _get_llm_cache_resolves (cache : AzureCosmosDBMongoVCoreSemanticCache)
    (llm_string : string) (w w' : World) (store : AzureCosmosDBMongoVCoreVectorSearch) :
  _get_llm_cache cache llm_string w = (Ok store, w') ->
  _cache_dict w' !! _index_name llm_string = Some store.
Proof.
  unfold _get_llm_cache.
  destruct (_cache_dict w !! _index_name llm_string) as [known|] eqn:Hreg.
  - intros E. injection E as <- <-. exact Hreg.
  - destruct (if cosmosdb_client cache then _ else _) as [created|e]; [|discriminate].
    simpl. destruct (index_exists created (collection w)).
    + intros E. injection E as <- <-. simpl. apply lookup_insert_eq.
    + unfold and_then, with_collection, create_index, pure. simpl.
      intros E. injection E as <- <-. simpl. apply lookup_insert_eq.
Qed.

(** [C9] On a model signature whose index name is not in the registry
    (nothing was looked up or updated for it), [clear] deletes nothing,
    changes nothing and does not raise; this holds for the Mongo vCore
    cache and for the NoSQL cache. *)
Theorem clear_unresolved_is_noop
    (llm_string : string) (w : World)
    (Store : Type) (self : AzureCosmosDBNoSqlSemanticCache) (nw : NoSqlWorld Store)
    (Hmongo : _cache_dict w !! _index_name llm_string = None)
    (Hnosql : nosql_cache_dict nw !! _cache_name llm_string = None) :
  clear (for_signature llm_string) w = (Ok tt, w)
  /\ nosql_clear self (for_signature llm_string) nw = (Ok tt, nw).
Proof.
  split.
  - unfold clear, for_signature, and_then, lift. simpl. rewrite Hmongo. reflexivity.
  - unfold nosql_clear, for_signature, and_then, lift. simpl. rewrite Hnosql.
    reflexivity.
Qed.

(** A cache that has stored entries for ["gpt-a"] only is cleared for
    ["gpt-b"]: nothing happens. *)
Lemma clear_unresolved_is_noop_instance :
  let w :=
    snd (@update two_payload_codec constant_embeddings sample_cache
           "question" "gpt-a" [IsGeneration hello] fresh_world) in
  let nw : NoSqlWorld string := mkNoSqlWorld ∅ sample_account in
  _cache_dict w !! _index_name "gpt-b" = None
  /\ nosql_cache_dict nw !! _cache_name "gpt-b" = None
  /\ length (coll_documents (collection w)) = 1%nat
  /\ clear (for_signature "gpt-b") w = (Ok tt, w)
  /\ nosql_clear sample_nosql_cache (for_signature "gpt-b") nw = (Ok tt, nw).
Proof.
  assert (Hm : _cache_dict
                 (snd (@update two_payload_codec constant_embeddings sample_cache
                         "question" "gpt-a" [IsGeneration hello] fresh_world))
               !! _index_name "gpt-b" = None) by (vm_compute; reflexivity).
  assert (Hn : nosql_cache_dict (mkNoSqlWorld (∅ : gmap string string) sample_account)
               !! _cache_name "gpt-b" = None) by (vm_compute; reflexivity).
  split; [exact Hm|]. split; [exact Hn|]. split; [vm_compute; reflexivity|].
  exact (clear_unresolved_is_noop "gpt-b" _ string sample_nosql_cache _ Hm Hn).
Defined.

(** [C4], as the code has it: on a model signature whose index name is
    in the registry, [clear] of the Mongo vCore cache deletes every
    document of the backing collection, whichever signature it was cached
    for, and leaves the registry and the indexes as they were; [clear] of
    the NoSQL cache deletes the whole database of the cache. *)
Theorem clear_resolved_deletes_everything
    (llm_string : string) (w : World) (store : AzureCosmosDBMongoVCoreVectorSearch)
    (Store : Type) (self : AzureCosmosDBNoSqlSemanticCache) (nw : NoSqlWorld Store)
    (nstore : Store) (database : gmap string (list dict))
    (Hmongo : _cache_dict w !! _index_name llm_string = Some store)
    (Hnosql : nosql_cache_dict nw !! _cache_name llm_string = Some nstore)
    (Hdb : cosmos_client nw !! nosql_database_name self = Some database) :
  clear (for_signature llm_string) w = (Ok tt, emptied w)
  /\ coll_documents (collection (emptied w)) = []
  /\ nosql_clear self (for_signature llm_string) nw
     = (Ok tt, mkNoSqlWorld (nosql_cache_dict nw)
                 (delete (nosql_database_name self) (cosmos_client nw)))
  /\ delete (nosql_database_name self) (cosmos_client nw)
       !! nosql_database_name self = None.
Proof.
  split; [|split; [reflexivity|split]].
  - unfold clear, for_signature, and_then, lift. simpl. rewrite Hmongo. reflexivity.
  - unfold nosql_clear, for_signature, and_then, lift, delete_database. simpl.
    rewrite Hnosql, Hdb. reflexivity.
  - apply lookup_delete_eq.
Qed.

(** A cache that has stored entries for ["gpt-a"] and for ["gpt-b"] is
    cleared for ["gpt-a"]. *)
Lemma clear_resolved_deletes_everything_instance :
  let w :=
    snd (@update two_payload_codec constant_embeddings sample_cache
           "other question" "gpt-b" [IsGeneration hi]
           (snd (@update two_payload_codec constant_embeddings sample_cache
                   "question" "gpt-a" [IsGeneration hello] fresh_world))) in
  let nw : NoSqlWorld string :=
    mkNoSqlWorld {[ _cache_name "gpt-a" := "store of gpt-a" ]} sample_account in
  _cache_dict w !! _index_name "gpt-a" = Some (new_vector_search (Some (_index_name "gpt-a")))
  /\ clear (for_signature "gpt-a") w = (Ok tt, emptied w)
  /\ nosql_clear sample_nosql_cache (for_signature "gpt-a") nw
     = (Ok tt, mkNoSqlWorld (nosql_cache_dict nw)
                 (delete "CosmosNoSqlCacheDB" sample_account)).
Proof.
  assert (Hm : _cache_dict
                 (snd (@update two_payload_codec constant_embeddings sample_cache
                         "other question" "gpt-b" [IsGeneration hi]
                         (snd (@update two_payload_codec constant_embeddings sample_cache
                                 "question" "gpt-a" [IsGeneration hello] fresh_world))))
               !! _index_name "gpt-a"
               = Some (new_vector_search (Some (_index_name "gpt-a"))))
    by (vm_compute; reflexivity).
  assert (Hn : ({[ _cache_name "gpt-a" := "store of gpt-a" ]} : gmap string string)
               !! _cache_name "gpt-a"
               = Some "store of gpt-a")
    by apply lookup_singleton_eq.
  assert (Hd : sample_account !! nosql_database_name sample_nosql_cache
               = Some {[ "CosmosNoSqlCacheContainer" := [cached "structured"] ]})
    by apply lookup_singleton_eq.
  split; [exact Hm|].
  pose proof (clear_resolved_deletes_everything "gpt-a" _ _ string sample_nosql_cache
                (mkNoSqlWorld _ sample_account) _ _ Hm Hn Hd) as (H1 & _ & H3 & _).
  split; [exact H1 | exact H3].
Defined.

(** [C4], as it is worded, fails: after an entry was cached for ["gpt-a"]
    and another for ["gpt-b"], clearing ["gpt-a"] leaves no document in
    the collection, so the entry cached for ["gpt-b"] has not remained. *)
Lemma clear_removes_entries_of_other_signatures :
  let w :=
    snd (@update two_payload_codec constant_embeddings sample_cache
           "other question" "gpt-b" [IsGeneration hi]
           (snd (@update two_payload_codec constant_embeddings sample_cache
                   "question" "gpt-a" [IsGeneration hello] fresh_world))) in
  map signature_of (coll_documents (collection w))
  = [Some (VStr "gpt-a"); Some (VStr "gpt-b")]
  /\ fst (clear (for_signature "gpt-a") w) = Ok tt
  /\ map signature_of
       (coll_documents (collection (snd (clear (for_signature "gpt-a") w))))
     = [].
Proof. vm_compute. repeat split; reflexivity. Qed.

End CacheFacts.

(* ===================================================================== *)
(** ** Properties of the Azure AI Search store *)
(* ===================================================================== *)

Module AzureSearchFacts.

Import AzureSearch Spec Samples PyFacts.

Section Uploads.

Context {F : FieldNames} {R : Runtime} {Svc : SearchService}.
Variable self : AzureSearch.AzureSearch.







(** *** From the trace to what a caller can observe *)





End Uploads.


(** 1500 texts of which the one keyed ["k500"] is refused: one batch of
    1000 is sent, the call raises with the report that names ["k500"],
    and the remaining 500 are not sent. *)
Example refused_document_stops_the_upload :
  exists report,
    fst (@add_embeddings default_field_names sample_runtime refusing_k500
           sample_store (texts_upto 1500) None (Some (keys_upto 1500)) empty_index)
    = Raise (LangChainException report)
    /\ List.filter (fun r => negb (succeeded r)) report = [mkIndexingResult "k500" false]
    /\ map (@length dict)
         (uploaded (snd (@add_embeddings default_field_names sample_runtime refusing_k500
                           sample_store (texts_upto 1500) None (Some (keys_upto 1500))
                           empty_index)))
       = [1000%nat].
Proof.
  eexists. split; [vm_compute; reflexivity|]. split; vm_compute; reflexivity.
Qed.

(** 2500 accepted texts go out as 1000, 1000 and 500. *)
Example accepted_documents_go_in_three_batches :
  map (@length dict)
    (uploaded (snd (@add_embeddings default_field_names sample_runtime accepting_service
                      sample_store (texts_upto 2500) None None empty_index)))
  = [1000%nat; 1000%nat; 500%nat].
Proof. vm_compute. reflexivity. Qed.

(** *** The synchronous and the asynchronous variants *)

(** [C1] at the input [text_embeddings = [("hello", [1.0, 0.0])]],
    [metadatas = None], [keys = ["doc1"]]: [add_embeddings] uploads a
    document whose id is ["doc1"] and returns [["doc1"]];
    [aadd_embeddings] uploads a document whose id is ["ZG9jMQ=="], the
    base64 encoding of the key, and returns [["ZG9jMQ=="]]. *)
Theorem explicit_keys_differ_between_sync_and_async :
  @add_embeddings default_field_names sample_runtime accepting_service sample_store
     [("hello", [1%float; 0%float])] None (Some ["doc1"]) empty_index
  = (Ok ["doc1"],
     mkIndex [[ [("@search.action", VStr "upload");
                 ("id", VStr "doc1");
                 ("content", VStr "hello");
                 ("content_vector", VList [VFloat 1%float; VFloat 0%float]);
                 ("metadata", VStr "{}")] ]] 0)
  /\ @aadd_embeddings default_field_names sample_runtime accepting_service sample_store
       [("hello", [1%float; 0%float])] None (Some ["doc1"]) empty_index
     = (Ok ["ZG9jMQ=="],
        mkIndex [[ [("@search.action", VStr "upload");
                    ("id", VStr "ZG9jMQ==");
                    ("content", VStr "hello");
                    ("content_vector", VList [VFloat 1%float; VFloat 0%float]);
                    ("metadata", VStr "{}")] ]] 0).
Proof. split; vm_compute; reflexivity. Qed.

(** Without explicit keys both variants encode the uuid they draw, and
    agree. *)
Example drawn_keys_agree :
  @add_embeddings default_field_names sample_runtime accepting_service sample_store
     [("hello", [1%float; 0%float])] None None empty_index
  = @aadd_embeddings default_field_names sample_runtime accepting_service sample_store
     [("hello", [1%float; 0%float])] None None empty_index.
Proof. vm_compute. reflexivity. Qed.

Section Reordering.

Context {F : FieldNames} {R : Runtime} {M : MarginalRelevance}.

(** [C3] at a fetch that returned zero rows: the synchronous reordering
    returns the empty list, and the asynchronous one raises [ValueError]
    where it unpacks the three lists. *)
Theorem empty_fetch_sync_returns_async_raises
    (query_embedding : list float) (lambda_mult : option float) (k : option Z) :
  _reorder_results_with_maximal_marginal_relevance [] query_embedding lambda_mult k
  = Ok []
  /\ _areorder_results_with_maximal_marginal_relevance [] query_embedding lambda_mult k
     = Raise ValueError.
Proof. split; reflexivity. Qed.

End Reordering.

(** The four MMR searches over a service that finds no row. *)
Example mmr_searches_on_empty_fetch :
  @max_marginal_relevance_search_with_score default_field_names sample_runtime
     first_k accepting_service constant_embeddings "query" None None None None
  = Ok []
  /\ @hybrid_max_marginal_relevance_search_with_score default_field_names sample_runtime
       first_k accepting_service constant_embeddings "query" None None None None
     = Ok []
  /\ @amax_marginal_relevance_search_with_score default_field_names sample_runtime
       first_k accepting_service constant_embeddings "query" None None None None
     = Raise ValueError
  /\ @ahybrid_max_marginal_relevance_search_with_score default_field_names sample_runtime
       first_k accepting_service constant_embeddings "query" None None None None
     = Raise ValueError.
Proof. repeat split; vm_compute; reflexivity. Qed.

(** *** Metadata that is already decoded *)

Section Normalizer.

Context {R : Runtime}.

(** The plain normalizer takes a decoded mapping as the metadata base. *)
Lemma plain_normalizer_takes_decoded_metadata (result meta : dict) (content : string) :
  dict_get result "metadata" = Some (VDict meta) ->
  dict_get result "content" = Some (VStr content) ->
  exists id_part result',
    @_result_to_document default_field_names R result
    = Ok (mkDocument content (dict_update id_part meta), result').
Proof.
  intros Hmeta Hcontent.
  unfold _result_to_document, dict_contains, dict_getitem, dict_pop. simpl.
  rewrite Hmeta. simpl.
  destruct (dict_get result "id") as [v|] eqn:Hid; simpl.
  - rewrite dict_get_remove_other by reflexivity. rewrite Hcontent. simpl.
    eexists; eexists; reflexivity.
  - rewrite Hcontent. simpl. eexists; eexists; reflexivity.
Qed.

(** The semantic normalizer hands the metadata field to [json.loads]
    whatever it holds, so a decoded mapping never gets through. *)
Lemma semantic_normalizer_refuses_decoded_metadata
    (semantic_answers_dict result meta : dict) :
  dict_get result "metadata" = Some (VDict meta) ->
  exists e,
    @semantic_result_to_document default_field_names R semantic_answers_dict result
    = Raise e.
Proof.
  intros Hmeta.
  unfold semantic_result_to_document, dict_contains, dict_getitem, dict_pop. simpl.
  destruct (dict_get result "content") as [c|]; simpl; [|eexists; reflexivity].
  rewrite (dict_get_remove_other result "content" "id") by reflexivity.
  destruct (dict_get result "id") as [v|]; simpl.
  - rewrite !dict_get_remove_other by reflexivity. rewrite Hmeta. simpl.
    eexists; reflexivity.
  - rewrite !dict_get_remove_other by reflexivity. rewrite Hmeta. simpl.
    eexists; reflexivity.
Qed.

(** [C5] at a row whose metadata field holds the mapping
    [{"source": "a.txt"}]: [_result_to_document] uses the mapping as the
    metadata base, and the normalizer of the semantic hybrid search raises
    [TypeError] from [json.loads]. *)
Theorem decoded_metadata_plain_accepts_semantic_raises (semantic_answers_dict : dict) :
  @_result_to_document default_field_names R decoded_metadata_row
  = Ok (mkDocument "some text" [("id", VStr "doc1"); ("source", VStr "a.txt")],
        [("content", VStr "some text");
         ("metadata", VDict [("source", VStr "a.txt")]);
         ("@search.score", VFloat 0.75%float);
         ("@search.reranker_score", VFloat 2%float)])
  /\ @semantic_result_to_document default_field_names R semantic_answers_dict
       decoded_metadata_row
     = Raise TypeError.
Proof. split; reflexivity. Qed.

End Normalizer.

(** The same row through both semantic searches, and a row whose
    metadata is a JSON string through them. *)
Example semantic_searches_on_decoded_metadata :
  let service (row : dict) : SearchService :=
    {| search _ := Ok (mkSearchResponse None [row]);
       upload_report _ _ := Ok [] |} in
  @semantic_hybrid_search_with_score_and_rerank default_field_names sample_runtime
     (service decoded_metadata_row) constant_embeddings sample_store "query" None None
  = Raise TypeError
  /\ @asemantic_hybrid_search_with_score_and_rerank default_field_names sample_runtime
     (service decoded_metadata_row) constant_embeddings sample_store "query" None None
  = Raise TypeError
  /\ is_ok (@semantic_hybrid_search_with_score_and_rerank default_field_names
             sample_runtime
             (service (dict_set decoded_metadata_row "metadata" (VStr "{}")))
             constant_embeddings sample_store "query" None None)
     = true.
Proof. repeat split; vm_compute; reflexivity. Qed.

End AzureSearchFacts.
Module MongoVCoreStoredFacts.

Import MongoVCore MongoVCoreStored PyFacts.

Lemma distinct_keys_spec (self : AzureCosmosDBMongoVCoreVectorSearch) :
  distinct_keys self = true ->
  String.eqb (_text_key self) (_embedding_key self) = false
  /\ String.eqb (_text_key self) "metadata" = false
  /\ String.eqb (_text_key self) "_id" = false
  /\ String.eqb (_embedding_key self) "metadata" = false
  /\ String.eqb (_embedding_key self) "_id" = false.
Proof.
  unfold distinct_keys. intros Hd.
  repeat (apply andb_prop in Hd; destruct Hd as [Hd ?]).
  repeat split; apply negb_true_iff; assumption.
Qed.

Section Normalise.

Variable self : AzureCosmosDBMongoVCoreVectorSearch.
Variable t : float.

Lemma found_document_row (row d m : dict) (s oid emb : value) (text : string)
    (with_embedding : bool) :
  distinct_keys self = true ->
  dict_get row "similarityScore" = Some s ->
  value_lt_float s t = Ok false ->
  dict_get row "document" = Some (VDict d) ->
  dict_get d (_text_key self) = Some (VStr text) ->
  stored_metadata d = Some m ->
  dict_get d "_id" = Some oid ->
  dict_get d (_embedding_key self) = Some emb ->
  row_to_doc self t with_embedding row
  = Ok (Some (mkDocument text
                (if with_embedding
                 then dict_set (dict_set m "_id" oid) (_embedding_key self) emb
                 else dict_set m "_id" oid),
              s)).
Proof.
  intros Hkeys Hs Hlt Hdoc Htext Hmeta Hid Hemb.
  destruct (distinct_keys_spec self Hkeys) as (Hte & Htm & Hti & Hem & Hei).
  unfold row_to_doc, dict_pop. rewrite Hs. simpl. rewrite Hlt. simpl.
  rewrite dict_get_remove_other by reflexivity. rewrite Hdoc. simpl.
  rewrite Htext. simpl.
  unfold dict_pop_default, stored_metadata in *.
  rewrite (dict_get_remove_other d _ "metadata" Htm).
  destruct (dict_get d "metadata") as [mv|] eqn:Hm.
  - destruct mv; try discriminate. injection Hmeta as ->.
    rewrite (dict_get_remove_other _ "metadata" "_id") by reflexivity.
    rewrite (dict_get_remove_other d _ "_id" Hti). rewrite Hid. simpl.
    destruct with_embedding; simpl; [|reflexivity].
    rewrite (dict_get_remove_other _ "_id" (_embedding_key self))
      by (rewrite String.eqb_sym; exact Hei).
    rewrite (dict_get_remove_other _ "metadata" (_embedding_key self))
      by (rewrite String.eqb_sym; exact Hem).
    rewrite (dict_get_remove_other d _ (_embedding_key self) Hte).
    rewrite Hemb. reflexivity.
  - injection Hmeta as <-.
    rewrite (dict_get_remove_other d _ "_id" Hti). rewrite Hid. simpl.
    destruct with_embedding; simpl; [|reflexivity].
    rewrite (dict_get_remove_other _ "_id" (_embedding_key self))
      by (rewrite String.eqb_sym; exact Hei).
    rewrite (dict_get_remove_other d _ (_embedding_key self) Hte).
    rewrite Hemb. reflexivity.
Qed.

End Normalise.

Section Stored.

Variable self : AzureCosmosDBMongoVCoreVectorSearch.
Hypothesis Hkeys : distinct_keys self = true.

Lemma stored_document_gets (text : string) (m : dict) (e : list float) (oid : value) :
  dict_get (stored_document self text m e oid) (_text_key self) = Some (VStr text)
  /\ stored_metadata (stored_document self text m e oid) = Some m
  /\ dict_get (stored_document self text m e oid) "_id" = Some oid
  /\ dict_get (stored_document self text m e oid) (_embedding_key self)
     = Some (float_list e).
Proof.
  destruct (distinct_keys_spec self Hkeys) as (Hte & Htm & Hti & Hem & Hei).
  unfold stored_document, stored_metadata.
  repeat split; rewrite !dict_get_set; simpl.
  - rewrite Hti, Htm, Hte, String.eqb_refl. reflexivity.
  - reflexivity.
  - reflexivity.
  - rewrite Hei, Hem, String.eqb_refl. reflexivity.
Qed.

Lemma hit_row_to_doc (t : float) (with_embedding : bool) (h : Hit) :
  row_to_doc self t with_embedding (hit_row self h)
  = Ok (if PrimFloat.ltb (hit_score h) t then None
        else Some (hit_result self with_embedding h)).
Proof.
  destruct (PrimFloat.ltb (hit_score h) t) eqn:Hlt.
  - apply MongoVCoreFacts.row_below_is_skipped.
    unfold Spec.below_threshold, hit_row. simpl. rewrite Hlt. reflexivity.
  - destruct (stored_document_gets (hit_text h) (hit_meta h) (hit_embedding h) (hit_id h))
      as (Ht & Hm & Hi & He).
    unfold hit_result.
    apply (found_document_row self t (hit_row self h)
             (stored_document self (hit_text h) (hit_meta h) (hit_embedding h) (hit_id h))
             (hit_meta h)
             (VFloat (hit_score h)) (hit_id h) (float_list (hit_embedding h))
             (hit_text h) with_embedding Hkeys); try assumption; try reflexivity.
    simpl. rewrite Hlt. reflexivity.
Qed.

Lemma scan_cursor_hits (t : float) (with_embedding : bool) (hits : list Hit) :
  forall docs,
    scan_cursor self t with_embedding (map (hit_row self) hits) docs
    = Ok (docs ++ map (hit_result self with_embedding) (kept t hits)).
Proof.
  induction hits as [|h hits IH]; intros docs.
  - simpl. rewrite app_nil_r. reflexivity.
  - cbn [map scan_cursor]. rewrite hit_row_to_doc. unfold bind.
    unfold kept in *. cbn [List.filter].
    destruct (PrimFloat.ltb (hit_score h) t); cbn [negb].
    + apply IH.
    + rewrite IH. cbn [map]. rewrite <- app_assoc. reflexivity.
Qed.

Section Searches.

Context {B : MongoBackend} {E : Embeddings} {M : AzureSearch.MarginalRelevance}.

Lemma search_returns_the_kept_hits_aux
    (coll : Collection) (embeddings : list float) (k : option Z)
    (kind : option CosmosDBVectorSearchType) (pre_filter : option dict)
    (ef_search : option Z) (score_threshold : option float) (l_search : option Z)
    (with_embedding : option bool) (oversampling : option (option float))
    (hits : list Hit) :
  aggregate coll (search_pipeline self embeddings k kind pre_filter ef_search l_search)
  = Ok (map (hit_row self) hits) ->
  _similarity_search_with_score self coll embeddings k kind pre_filter
    ef_search score_threshold l_search with_embedding oversampling
  = Ok (map (hit_result self (default false with_embedding))
            (kept (default 0%float score_threshold) hits)).
Proof.
  intros Hcursor.
  unfold _similarity_search_with_score. rewrite Hcursor. simpl.
  rewrite scan_cursor_hits. reflexivity.
Qed.

(** [X2] When the cursor holds one row for each stored document found,
    the search returns, in cursor order, exactly the hits whose score is
    not below the threshold: the stored text as content, the stored
    metadata with the identifier added under ["_id"] (replacing a
    metadata entry of that name), the vector under the embedding key only
    when [with_embedding] is set, and the score beside it. *)
Theorem search_returns_the_kept_hits
    (coll : Collection) (embeddings : list float) (k : option Z)
    (kind : option CosmosDBVectorSearchType) (pre_filter : option dict)
    (ef_search : option Z) (score_threshold : option float) (l_search : option Z)
    (with_embedding : option bool) (oversampling : option (option float))
    (hits : list Hit)
    (Hcursor : aggregate coll
                 (search_pipeline self embeddings k kind pre_filter ef_search l_search)
               = Ok (map (hit_row self) hits)) :
  _similarity_search_with_score self coll embeddings k kind pre_filter
    ef_search score_threshold l_search with_embedding oversampling
  = Ok (map (hit_result self (default false with_embedding))
            (kept (default 0%float score_threshold) hits)).
Proof.
  exact (search_returns_the_kept_hits_aux coll embeddings k kind pre_filter ef_search
           score_threshold l_search with_embedding oversampling hits Hcursor).
Qed.

Lemma embedding_column_with (hits : list Hit) :
  embedding_column self (map (hit_result self true) hits)
  = Ok (map (fun h => float_list (hit_embedding h)) hits).
Proof.
  induction hits as [|h hits IH]; [reflexivity|].
  cbn [map embedding_column hit_result]. unfold dict_getitem. cbn [metadata].
  rewrite dict_get_set, String.eqb_refl. simpl. rewrite IH. reflexivity.
Qed.

Lemma embedding_column_without (h : Hit) (hits : list Hit) :
  dict_get (hit_meta h) (_embedding_key self) = None ->
  embedding_column self (map (hit_result self false) (h :: hits))
  = Raise (KeyError (_embedding_key self)).
Proof.
  intros Hnone.
  destruct (distinct_keys_spec self Hkeys) as (_ & _ & _ & _ & Hei).
  cbn [map embedding_column hit_result]. unfold dict_getitem. cbn [metadata].
  rewrite dict_get_set, Hei, Hnone. reflexivity.
Qed.

(** [X7] [max_marginal_relevance_search_by_vector] reads the vector of
    each document found from its metadata. Called with [with_embedding]
    it hands the stored vectors to the re-ranking and returns the
    documents at the indexes chosen. Called without it, which is the
    default, the vector is not put in the metadata: as soon as a hit is
    kept whose stored metadata has no entry under the embedding key, the
    call raises [KeyError] for that key. *)
Theorem mmr_search_needs_the_embedding
    (coll : Collection) (embedding : list float) (k fetch_k : option Z)
    (lambda_mult : option float)
    (kind : option CosmosDBVectorSearchType) (pre_filter : option dict)
    (ef_search : option Z) (score_threshold : option float) (l_search : option Z)
    (oversampling : option (option float))
    (hits : list Hit)
    (Hcursor : aggregate coll
                 (mmr_pipeline self embedding fetch_k kind pre_filter ef_search l_search)
               = Ok (map (hit_row self) hits)) :
  max_marginal_relevance_search_by_vector self coll embedding k fetch_k lambda_mult
    kind pre_filter ef_search score_threshold l_search (Some true) oversampling
  = (do indexes <-
       AzureSearch.maximal_marginal_relevance embedding
         (map (fun h => float_list (hit_embedding h))
              (kept (default 0%float score_threshold) hits))
         (default 4%Z k) (default 0.5%float lambda_mult);
     documents_at
       (map (hit_result self true) (kept (default 0%float score_threshold) hits))
       indexes)
  /\ (forall with_embedding h more,
        default false with_embedding = false ->
        kept (default 0%float score_threshold) hits = h :: more ->
        dict_get (hit_meta h) (_embedding_key self) = None ->
        max_marginal_relevance_search_by_vector self coll embedding k fetch_k lambda_mult
          kind pre_filter ef_search score_threshold l_search with_embedding oversampling
        = Raise (KeyError (_embedding_key self))).
Proof.
  unfold mmr_pipeline in Hcursor. split.
  - unfold max_marginal_relevance_search_by_vector.
    rewrite (search_returns_the_kept_hits_aux coll embedding _ _ pre_filter _ _ _ _ _ hits Hcursor).
    simpl. rewrite embedding_column_with. reflexivity.
  - intros with_embedding h more Hwe Hkept Hnone.
    unfold max_marginal_relevance_search_by_vector.
    rewrite (search_returns_the_kept_hits_aux coll embedding _ _ pre_filter _ _ _ _ _ hits Hcursor).
    simpl. rewrite Hwe, Hkept.
    rewrite (embedding_column_without h more Hnone). reflexivity.
Qed.

End Searches.

End Stored.

Lemma search_returns_the_kept_hits_instance :
  @_similarity_search_with_score (new_vector_search None)
    (Samples.fixed_cursor (map (hit_row (new_vector_search None)) sample_hits))
    Samples.empty_collection [1%float; 0%float]
    None None None None None None (Some true) None
  = Ok [(mkDocument "first"
           [("source", VStr "a.txt"); ("_id", VInt 1);
            ("vectorContent", VList [VFloat 1%float; VFloat 0%float])],
         VFloat 0.75%float)].
Proof.
  apply (search_returns_the_kept_hits (new_vector_search None) eq_refl
           (B := Samples.fixed_cursor (map (hit_row (new_vector_search None)) sample_hits))
           Samples.empty_collection [1%float; 0%float]
           None None None None None None (Some true) None sample_hits).
  reflexivity.
Defined.

Lemma mmr_search_needs_the_embedding_instance :
  @max_marginal_relevance_search_by_vector
    (Samples.fixed_cursor (map (hit_row (new_vector_search None)) sample_hits))
    Samples.first_k (new_vector_search None)
    Samples.empty_collection [1%float; 0%float]
    None None None None None None None None (Some true) None
  = Ok [mkDocument "first"
          [("source", VStr "a.txt"); ("_id", VInt 1);
           ("vectorContent", VList [VFloat 1%float; VFloat 0%float])]]
  /\ @max_marginal_relevance_search_by_vector
       (Samples.fixed_cursor (map (hit_row (new_vector_search None)) sample_hits))
       Samples.first_k (new_vector_search None)
       Samples.empty_collection [1%float; 0%float]
       None None None None None None None None None None
     = Raise (KeyError "vectorContent").
Proof.
  destruct (mmr_search_needs_the_embedding (new_vector_search None) eq_refl
              (B := Samples.fixed_cursor (map (hit_row (new_vector_search None)) sample_hits))
              (M := Samples.first_k)
              Samples.empty_collection [1%float; 0%float]
              None None None None None None None None None sample_hits eq_refl)
    as [Hwith Hwithout].
  split.
  - rewrite Hwith. reflexivity.
  - apply (Hwithout None _ _ eq_refl eq_refl). reflexivity.
Defined.

End MongoVCoreStoredFacts.

Module MongoVCoreInsertFacts.

Import MongoVCore MongoVCoreStored PyFacts.

Lemma zip3_app (ts1 ts2 : list string) (ms1 ms2 : list dict) (es1 es2 : list (list float)) :
  length ts1 = length ms1 -> length ts1 = length es1 ->
  zip3 (ts1 ++ ts2) (ms1 ++ ms2) (es1 ++ es2) = zip3 ts1 ms1 es1 ++ zip3 ts2 ms2 es2.
Proof.
  revert ms1 es1.
  induction ts1 as [|t ts1 IH]; intros [|m ms1] [|e es1]; simpl; try discriminate.
  - reflexivity.
  - intros Hm He. f_equal. apply IH; congruence.
Qed.

Lemma zip3_length (ts : list string) (ms : list dict) (es : list (list float)) :
  length ts = length ms -> length ts = length es ->
  length (zip3 ts ms es) = length ts.
Proof.
  revert ms es.
  induction ts as [|t ts IH]; intros [|m ms] [|e es]; simpl; try discriminate.
  - reflexivity.
  - intros Hm He. f_equal. apply IH; congruence.
Qed.

Lemma stored_documents_app (self : AzureCosmosDBMongoVCoreVectorSearch)
    (l1 l2 : list (string * dict * list float)) (next : Z) :
  stored_documents self (l1 ++ l2) next
  = stored_documents self l1 next
    ++ stored_documents self l2 (next + Z.of_nat (length l1))%Z.
Proof.
  revert next. induction l1 as [|[[t m] e] l1 IH]; intros next; simpl.
  - rewrite Z.add_0_r. reflexivity.
  - rewrite IH. do 3 f_equal. lia.
Qed.

Lemma identifiers_app (next : Z) (n1 n2 : nat) :
  identifiers next (n1 + n2)
  = identifiers next n1 ++ identifiers (next + Z.of_nat n1)%Z n2.
Proof.
  revert next. induction n1 as [|n1 IH]; intros next.
  - simpl. rewrite Z.add_0_r. reflexivity.
  - cbn [Nat.add identifiers app]. rewrite IH. do 3 f_equal. lia.
Qed.

Lemma identifiers_length (next : Z) (n : nat) : length (identifiers next n) = n.
Proof.
  revert next. induction n as [|n IH]; intros next; simpl; [reflexivity|].
  rewrite IH. reflexivity.
Qed.

Section Insert.

Context {E : Embeddings}.

Variable self : AzureCosmosDBMongoVCoreVectorSearch.

Lemma assign_ids_stored (entries : list (string * dict * list float)) (next : Z) :
  assign_ids
    (map (fun '(t, m, e) =>
            dict_set (dict_set [(_text_key self, VStr t)]
                               (_embedding_key self) (float_list e))
                     "metadata" (VDict m))
         entries) next
  = (stored_documents self entries next,
     identifiers next (length entries),
     (next + Z.of_nat (length entries))%Z).
Proof.
  revert next. induction entries as [|[[t m] e] entries IH]; intros next.
  - simpl. rewrite Z.add_0_r. reflexivity.
  - cbn [map assign_ids]. rewrite IH. cbn [stored_documents length identifiers].
    unfold stored_document. f_equal. lia.
Qed.

Hypothesis Hvectors : one_vector_per_text E.

Lemma _insert_texts_stores (texts : list string) (metas : list dict)
    (coll coll' : Collection) (ids : list value) :
  length texts = length metas ->
  _insert_texts self texts metas coll = (Ok ids, coll') ->
  stored_after self coll coll' texts metas ids.
Proof.
  intros Hlen. unfold _insert_texts.
  destruct texts as [|t texts].
  - simpl. unfold pure. intros Heq. injection Heq as <- <-.
    exists []. simpl. rewrite app_nil_r, Z.add_0_r. repeat split; reflexivity.
  - cbn [list_truthy negb]. unfold and_then, lift.
    destruct (embed_documents (t :: texts)) as [vectors|e] eqn:Hemb; [|discriminate].
    pose proof (Hvectors _ _ Hemb) as Hv.
    unfold insert_many. rewrite assign_ids_stored.
    destruct metas as [|m metas]; [discriminate|].
    destruct vectors as [|v vectors]; [discriminate|].
    cbn [zip3 map]. intros Heq. injection Heq as <- <-.
    exists (v :: vectors). cbn [coll_documents coll_name coll_indexes coll_next_id].
    assert (Hz : length (zip3 texts metas vectors) = length texts).
    { apply zip3_length; simpl in *; congruence. }
    cbn [length zip3]. rewrite Hz.
    repeat split; try reflexivity. exact Hv.
Qed.

Lemma add_texts_loop_stores (batch_size : Z) (items : list (string * dict)) :
  forall (i : Z) (texts_batch : list string) (metadatas_batch : list dict)
         (result_ids : list value) (coll coll' : Collection) (ids : list value),
    length texts_batch = length metadatas_batch ->
    add_texts_loop self batch_size items i texts_batch metadatas_batch result_ids coll
    = (Ok ids, coll') ->
    exists new_ids,
      ids = result_ids ++ new_ids
      /\ stored_after self coll coll'
           (texts_batch ++ map fst items) (metadatas_batch ++ map snd items) new_ids.
Proof.
  induction items as [|[text meta] rest IH];
    intros i tb mb rids coll coll' ids Hlen.
  - cbn [add_texts_loop map]. rewrite !app_nil_r.
    destruct (list_truthy tb) eqn:Htb.
    + unfold and_then.
      destruct (_insert_texts self tb mb coll) as [[new_ids|e] coll1] eqn:Hins;
        [|discriminate].
      unfold pure. intros Heq. injection Heq as <- <-.
      exists new_ids. split; [reflexivity|].
      exact (_insert_texts_stores tb mb coll coll1 new_ids Hlen Hins).
    + unfold pure. intros Heq. injection Heq as <- <-.
      destruct tb; [|discriminate]. destruct mb; [|discriminate].
      exists []. split; [rewrite app_nil_r; reflexivity|].
      exists []. simpl. rewrite app_nil_r, Z.add_0_r. repeat split; reflexivity.
  - cbn [add_texts_loop map fst snd].
    destruct (batch_size =? 0)%Z; [discriminate|].
    assert (Hlen1 : length (tb ++ [text]) = length (mb ++ [meta])).
    { rewrite !length_app. simpl. lia. }
    destruct ((i + 1) mod batch_size =? 0)%Z.
    + unfold and_then at 1.
      destruct (_insert_texts self (tb ++ [text]) (mb ++ [meta]) coll)
        as [[ids1|e] coll1] eqn:Hins; [|discriminate].
      intros Hrest.
      destruct (IH _ [] [] _ coll1 coll' ids eq_refl Hrest) as (ids2 & Hids & Hst2).
      pose proof (_insert_texts_stores _ _ coll coll1 ids1 Hlen1 Hins) as Hst1.
      exists (ids1 ++ ids2). split; [rewrite Hids, app_assoc; reflexivity|].
      destruct Hst1 as (v1 & Hv1 & Hd1 & Hi1 & Hn1 & Hx1 & Hc1).
      destruct Hst2 as (v2 & Hv2 & Hd2 & Hi2 & Hn2 & Hx2 & Hc2).
      simpl in Hv2, Hd2, Hi2, Hc2.
      exists (v1 ++ v2).
      replace (tb ++ text :: map fst rest) with ((tb ++ [text]) ++ map fst rest)
        by (rewrite <- app_assoc; reflexivity).
      replace (mb ++ meta :: map snd rest) with ((mb ++ [meta]) ++ map snd rest)
        by (rewrite <- app_assoc; reflexivity).
      rewrite zip3_app by congruence.
      rewrite stored_documents_app, zip3_length by congruence.
      rewrite (length_app (tb ++ [text])), (length_app v1), identifiers_app.
      rewrite Hd2, Hd1, Hi1, Hi2, Hc2, Hc1, Hn2, Hn1, Hx2, Hx1, Hv1, Hv2.
      rewrite <- app_assoc.
      repeat split; try reflexivity. lia.
    + intros Hrest.
      destruct (IH _ _ _ _ coll coll' ids Hlen1 Hrest) as (ids2 & Hids & Hst2).
      exists ids2. split; [exact Hids|].
      rewrite <- !app_assoc in Hst2. exact Hst2.
Qed.

Hypothesis Hanswers : forall texts, is_ok (embed_documents texts) = true.

Lemma _insert_texts_returns (texts : list string) (metas : list dict) (coll : Collection) :
  length texts = length metas ->
  exists ids coll', _insert_texts self texts metas coll = (Ok ids, coll').
Proof.
  intros Hlen. unfold _insert_texts.
  destruct texts as [|t texts]; [simpl; unfold pure; eauto|].
  cbn [list_truthy negb]. unfold and_then, lift.
  pose proof (Hanswers (t :: texts)) as Hok.
  destruct (embed_documents (t :: texts)) as [vectors|e] eqn:Hemb; [|discriminate].
  pose proof (Hvectors _ _ Hemb) as Hv.
  destruct metas as [|m metas]; [discriminate|].
  destruct vectors as [|v vectors]; [discriminate|].
  unfold insert_many. cbn [zip3 map].
  destruct (assign_ids _ _) as [[ds ids] next]. eauto.
Qed.

Lemma add_texts_loop_returns (batch_size : Z) (items : list (string * dict)) :
  batch_size <> 0%Z ->
  forall (i : Z) (texts_batch : list string) (metadatas_batch : list dict)
         (result_ids : list value) (coll : Collection),
    length texts_batch = length metadatas_batch ->
    exists ids coll',
      add_texts_loop self batch_size items i texts_batch metadatas_batch result_ids coll
      = (Ok ids, coll').
Proof.
  intros Hbs. apply Z.eqb_neq in Hbs.
  induction items as [|[text meta] rest IH]; intros i tb mb rids coll Hlen.
  - cbn [add_texts_loop].
    destruct (list_truthy tb); [|unfold pure; eauto].
    unfold and_then.
    destruct (_insert_texts_returns tb mb coll Hlen) as (ids & coll1 & ->).
    unfold pure. eauto.
  - cbn [add_texts_loop]. rewrite Hbs.
    assert (Hlen1 : length (tb ++ [text]) = length (mb ++ [meta])).
    { rewrite !length_app. simpl. lia. }
    destruct ((i + 1) mod batch_size =? 0)%Z.
    + unfold and_then at 1.
      destruct (_insert_texts_returns _ _ coll Hlen1) as (ids & coll1 & ->).
      apply IH. reflexivity.
    + apply IH. exact Hlen1.
Qed.

(** [X3] With an embedding model that answers every batch with one vector
    for each text, and a batch size that is not zero, [add_texts] returns,
    and the collection then holds what it held before followed by one
    document for each (text, metadata) pair, in order: the text under the
    text key, a vector under the embedding key, the metadata under
    ["metadata"], and under ["_id"] the identifier returned at the same
    position. The index list is not touched. *)
Theorem add_texts_stores_each_pair_in_order
    (texts : list string) (metadatas : option (list dict)) (batch_size : option Z)
    (coll : Collection)
    (Hbatch : default DEFAULT_INSERT_BATCH_SIZE batch_size <> 0%Z) :
  exists ids coll',
    add_texts self texts metadatas batch_size coll = (Ok ids, coll')
    /\ stored_after self coll coll'
         (map fst (text_metadata_pairs texts metadatas))
         (map snd (text_metadata_pairs texts metadatas)) ids.
Proof.
  unfold add_texts.
  destruct (add_texts_loop_returns _ (text_metadata_pairs texts metadatas) Hbatch
              0%Z [] [] [] coll eq_refl) as (ids & coll' & Hreturned).
  exists ids, coll'. split; [exact Hreturned|].
  destruct (add_texts_loop_stores _ _ 0%Z [] [] [] coll coll' ids eq_refl Hreturned)
    as (new_ids & Hids & Hst).
  simpl in Hids. subst new_ids. exact Hst.
Qed.

End Insert.

(** [X4] A metadata list that is not empty and shorter than the texts
    cuts the texts off: the texts beyond it are neither embedded nor
    stored, and no error is raised for them. *)
Theorem add_texts_ignores_texts_beyond_metadatas {E : Embeddings}
    (self : AzureCosmosDBMongoVCoreVectorSearch)
    (texts : list string) (ms : list dict) (batch_size : option Z)
    (coll : Collection)
    (Hms : list_truthy ms = true) :
  add_texts self texts (Some ms) batch_size coll
  = add_texts self (firstn (length ms) texts) (Some ms) batch_size coll.
Proof.
  unfold add_texts. rewrite Hms.
  rewrite (combine_firstn_r texts ms) at 1. reflexivity.
Qed.

Lemma constant_embeddings_one_vector_per_text :
  one_vector_per_text Samples.constant_embeddings.
Proof.
  intros texts vectors Heq. simpl in Heq. injection Heq as <-.
  apply length_map.
Qed.

Lemma add_texts_stores_each_pair_in_order_instance :
  exists ids coll',
    @add_texts (new_vector_search None) Samples.constant_embeddings
      ["a"; "b"; "c"] None (Some 2%Z) Samples.empty_collection = (Ok ids, coll')
    /\ stored_after (new_vector_search None) Samples.empty_collection coll'
         ["a"; "b"; "c"] [[]; []; []] ids.
Proof.
  apply (add_texts_stores_each_pair_in_order (E := Samples.constant_embeddings)
           (new_vector_search None) constant_embeddings_one_vector_per_text
           (fun _ => eq_refl) ["a"; "b"; "c"] None (Some 2%Z) Samples.empty_collection).
  simpl. lia.
Defined.

Lemma add_texts_ignores_texts_beyond_metadatas_instance :
  @add_texts (new_vector_search None) Samples.constant_embeddings
    ["a"; "b"; "c"] (Some [[("n", VInt 1)]]) None Samples.empty_collection
  = @add_texts (new_vector_search None) Samples.constant_embeddings
      ["a"] (Some [[("n", VInt 1)]]) None Samples.empty_collection.
Proof.
  apply (add_texts_ignores_texts_beyond_metadatas (E := Samples.constant_embeddings)
           (new_vector_search None) ["a"; "b"; "c"] [[("n", VInt 1)]] None
           Samples.empty_collection).
  reflexivity.
Defined.

End MongoVCoreInsertFacts.
